(** * A shallow embedding of libiocage's configuration model

    The Python sources embedded here are
    - [libiocage/lib/JailConfig.py]       (the property model [JailConfig]),
    - [libiocage/lib/JailConfigFstab.py]  (the fstab model [JailConfigFstab]),
    - [libiocage/lib/ConfigJSON.py]       (the JSON configuration store),
    - [libiocage/lib/Resource.py]         (the configuration type of a resource),
    - [libiocage/cli/get.py]              (the dispatch of [iocage get]).

    Python values are a small inductive type, Python dicts (which keep
    insertion order) are association lists, and the methods of
    [JailConfig] run in a state-and-exception monad: a Python exception
    leaves the mutations done before it in place, as in the source. *)

From Stdlib Require Import String Ascii List Bool Arith ZArith Lia.
From Stdlib Require Import Sorting.Permutation Sorting.Sorted.
From Stdlib Require Import Structures.OrdersEx.
Import ListNotations.
Open Scope string_scope.

(* ------------------------------------------------------------------ *)
(** ** Python strings *)

Module PyStr.

Definition ascii_eqb (a b : ascii) : bool := Ascii.eqb a b.

(** Characters for which [str.isspace] holds, restricted to ASCII. *)
Definition is_space (c : ascii) : bool :=
  let n := nat_of_ascii c in
  Nat.eqb n 32 || (Nat.leb 9 n && Nat.leb n 13) || (Nat.leb 28 n && Nat.leb n 31).

Fixpoint to_list (s : string) : list ascii :=
  match s with
  | EmptyString => []
  | String c r => c :: to_list r
  end.

Fixpoint of_list (l : list ascii) : string :=
  match l with
  | [] => EmptyString
  | c :: r => String c (of_list r)
  end.

(** [str.split()] with no argument: split at runs of whitespace and drop
    empty pieces. [cur] is the piece being read, reversed. *)
Fixpoint split_ws_aux (l : list ascii) (cur : list ascii) : list string :=
  match l with
  | [] => match cur with [] => [] | _ => [of_list (rev cur)] end
  | c :: r =>
      if is_space c then
        match cur with
        | [] => split_ws_aux r []
        | _ => of_list (rev cur) :: split_ws_aux r []
        end
      else split_ws_aux r (c :: cur)
  end.

Definition split_ws (s : string) : list string := split_ws_aux (to_list s) [].

(** [str.split(sep)] for a one-character separator: keeps empty pieces. *)
Fixpoint split_char_aux (sep : ascii) (l : list ascii) (cur : list ascii)
  : list string :=
  match l with
  | [] => [of_list (rev cur)]
  | c :: r =>
      if ascii_eqb c sep then of_list (rev cur) :: split_char_aux sep r []
      else split_char_aux sep r (c :: cur)
  end.

Definition split_char (sep : ascii) (s : string) : list string :=
  split_char_aux sep (to_list s) [].

(** [str.split(sep, maxsplit=1)] unpacked into two names: [None] stands
    for the [ValueError] raised when [sep] does not occur. *)
Fixpoint split_once (sep : ascii) (s : string) : option (string * string) :=
  match s with
  | EmptyString => None
  | String c r =>
      if ascii_eqb c sep then Some (EmptyString, r)
      else match split_once sep r with
           | Some (a, b) => Some (String c a, b)
           | None => None
           end
  end.

(** [str.strip(chars)]: drop leading and trailing characters satisfying [p]. *)
Fixpoint lstrip_list (p : ascii -> bool) (l : list ascii) : list ascii :=
  match l with
  | [] => []
  | c :: r => if p c then lstrip_list p r else l
  end.

Definition strip_by (p : ascii -> bool) (s : string) : string :=
  of_list (rev (lstrip_list p (rev (lstrip_list p (to_list s))))).

Definition strip (s : string) : string := strip_by is_space s.

Definition in_chars (cs : string) (c : ascii) : bool :=
  existsb (ascii_eqb c) (to_list cs).

Definition strip_chars (cs : string) (s : string) : string :=
  strip_by (in_chars cs) s.

(** [pat in s] for strings. *)
Fixpoint contains (pat s : string) : bool :=
  String.prefix pat s ||
  match s with
  | EmptyString => false
  | String _ r => contains pat r
  end.

(** [str.replace(pat, rep)] for a non-empty [pat]: replaces every
    occurrence, scanning left to right. *)
Fixpoint replace_aux (fuel : nat) (pat rep s : string) : string :=
  match fuel with
  | O => s
  | S f =>
      match s with
      | EmptyString => EmptyString
      | String c r =>
          if String.prefix pat s then
            rep ++ replace_aux f pat rep
                      (substring (String.length pat)
                                 (String.length s - String.length pat) s)
          else String c (replace_aux f pat rep r)
      end
  end.

Definition replace (pat rep s : string) : string :=
  replace_aux (S (String.length s)) pat rep s.

(** [sep.join(l)]. *)
Definition join (sep : string) (l : list string) : string :=
  String.concat sep l.

End PyStr.

(* ------------------------------------------------------------------ *)
(** ** Python values, dicts and exceptions *)

(** The values that flow through [JailConfig]. [VObj cls r] is any other
    object (a special-property handler, a [JailConfigList], a set, an
    attribute of the configuration object); [r] is what [str()] gives for
    it. [VFun n] is a function object. *)
Inductive pyval : Type :=
| VStr (s : string)
| VBool (b : bool)
| VNone
| VList (l : list string)
| VObj (cls : string) (r : string)
| VFun (name : string).

Definition pyval_eq_dec (x y : pyval) : {x = y} + {x <> y}.
Proof. decide equality; try apply string_dec; try apply bool_dec;
       apply list_eq_dec; apply string_dec. Defined.

(** [x == y] *)
Definition py_eqb (x y : pyval) : bool :=
  if pyval_eq_dec x y then true else false.

(** Truth value of [x] in a Python condition. *)
Definition truthy (x : pyval) : bool :=
  match x with
  | VStr s => negb (String.eqb s "")
  | VBool b => b
  | VNone => false
  | VList l => match l with [] => false | _ => true end
  | VObj _ _ => true
  | VFun _ => true
  end.

Definition hex_digit (n : nat) : ascii :=
  ascii_of_nat (if Nat.ltb n 10 then 48 + n else 87 + n).

(** [repr()] of a string: single quotes unless the text contains a single
    quote and no double quote; backslash, the quote in use and the control
    characters are escaped. *)
Definition repr_char (q : ascii) (c : ascii) : string :=
  let n := nat_of_ascii c in
  if Ascii.eqb c "\"%char then "\\"
  else if Ascii.eqb c q then String "\"%char (String c EmptyString)
  else if Nat.eqb n 10 then "\n"
  else if Nat.eqb n 13 then "\r"
  else if Nat.eqb n 9 then "\t"
  else if Nat.ltb n 32 || Nat.eqb n 127 then
    String "\"%char (String "x"%char
      (String (hex_digit (n / 16)) (String (hex_digit (n mod 16)) EmptyString)))
  else String c EmptyString.

Definition py_repr_str (s : string) : string :=
  let dq := ascii_of_nat 34 in
  let sq := ascii_of_nat 39 in
  let q := if PyStr.in_chars s sq && negb (PyStr.in_chars s dq)
           then dq else sq in
  String q (String.concat "" (map (repr_char q) (PyStr.to_list s))
            ++ String q EmptyString).

(** [str(x)] *)
Definition py_str (x : pyval) : string :=
  match x with
  | VStr s => s
  | VBool true => "True"
  | VBool false => "False"
  | VNone => "None"
  | VList l => "[" ++ PyStr.join ", " (map py_repr_str l) ++ "]"
  | VObj _ r => r
  | VFun n => "<function " ++ n ++ ">"
  end.

(** A Python dict with string keys, in insertion order. *)
Definition dict := list (string * pyval).

Fixpoint dget (d : dict) (k : string) : option pyval :=
  match d with
  | [] => None
  | (k', v) :: r => if String.eqb k k' then Some v else dget r k
  end.

(** [d[k] = v]: an existing key keeps its position, a new one is appended. *)
Fixpoint dset (d : dict) (k : string) (v : pyval) : dict :=
  match d with
  | [] => [(k, v)]
  | (k', v') :: r =>
      if String.eqb k k' then (k', v) :: r else (k', v') :: dset r k v
  end.

(** [del d[k]]: [None] is the [KeyError] of a missing key. *)
Fixpoint ddel (d : dict) (k : string) : option dict :=
  match d with
  | [] => None
  | (k', v') :: r =>
      if String.eqb k k' then Some r
      else option_map (cons (k', v')) (ddel r k)
  end.

Inductive exn : Type :=
| KeyError
| AttributeError
| TypeError
| ValueError
| OSError
| JSONDecodeError
| InvalidJailName
| InvalidJailConfigValue
| JailConfigZFSIsNotAllowed
| CollaboratorError (what : string).

Inductive res (A : Type) : Type :=
| Ok (a : A)
| Err (e : exn).
Arguments Ok {A} a.
Arguments Err {A} e.

Definition of_opt {A} (e : exn) (o : option A) : res A :=
  match o with Some a => Ok a | None => Err e end.

(* ------------------------------------------------------------------ *)
(** ** Helpers of [libiocage.lib.helpers] and the standard library *)

(** Modelled from the spec: [libiocage.lib.helpers.parse_user_input]
    (not in the sources). Free-form input is coerced to a canonical
    internal shape: the boolean words become booleans, ["none"] becomes
    [None], anything else is kept. *)
Definition parse_user_input (v : pyval) : pyval :=
  match v with
  | VStr s =>
      if existsb (String.eqb s) ["yes"; "on"; "true"] then VBool true
      else if existsb (String.eqb s) ["no"; "off"; "false"] then VBool false
      else if String.eqb s "none" then VNone
      else VStr s
  | _ => v
  end.

(** Modelled from the spec: [libiocage.lib.helpers.to_string(value, true=,
    false=, none=)] (not in the sources): booleans become the given words,
    [None] the given word, lists are joined by whitespace, strings are kept. *)
Definition to_string (v : pyval) (t f n : string) : string :=
  match v with
  | VBool true => t
  | VBool false => f
  | VNone => n
  | VStr s => s
  | VList l => PyStr.join " " l
  | _ => py_str v
  end.

Definition name_char (c : ascii) : bool :=
  let n := nat_of_ascii c in
  (Nat.leb 65 n && Nat.leb n 90) || (Nat.leb 97 n && Nat.leb n 122)
  || (Nat.leb 48 n && Nat.leb n 57)
  || Nat.eqb n 46 || Nat.eqb n 95 || Nat.eqb n 45.

(** Modelled from the spec: [libiocage.lib.helpers.validate_name] (not in
    the sources): a name is valid when all its characters are in
    [A-Za-z0-9._-] (a caret is not). *)
Definition validate_name (name : string) : bool :=
  forallb name_char (PyStr.to_list name).

Definition is_hex (c : ascii) : bool :=
  let n := nat_of_ascii c in
  (Nat.leb 48 n && Nat.leb n 57) || (Nat.leb 97 n && Nat.leb n 102)
  || (Nat.leb 65 n && Nat.leb n 70).

Definition lower_hex (c : ascii) : ascii :=
  let n := nat_of_ascii c in
  if Nat.leb 65 n && Nat.leb n 70 then ascii_of_nat (n + 32) else c.

(** [str(uuid.UUID(hex))] of Python's standard library: drop ["urn:"] and
    ["uuid:"], strip braces, drop hyphens, require 32 hexadecimal digits,
    print them in lower case as 8-4-4-4-12. [int(hex, 16)] also accepts
    surrounding whitespace, a sign and underscores between digits; those
    spellings are rejected here. *)
Definition uuid_str (hex : string) : res string :=
  let h := PyStr.replace "uuid:" "" (PyStr.replace "urn:" "" hex) in
  let h := PyStr.replace "-" "" (PyStr.strip_chars "{}" h) in
  let l := PyStr.to_list h in
  if negb (Nat.eqb (List.length l) 32) then Err ValueError
  else if negb (forallb is_hex l) then Err ValueError
  else
    let l := map lower_hex l in
    Ok (PyStr.of_list (firstn 8 l) ++ "-" ++ PyStr.of_list (firstn 4 (skipn 8 l))
        ++ "-" ++ PyStr.of_list (firstn 4 (skipn 12 l))
        ++ "-" ++ PyStr.of_list (firstn 4 (skipn 16 l))
        ++ "-" ++ PyStr.of_list (skipn 20 l)).

(* ------------------------------------------------------------------ *)
(** ** The state of a [JailConfig] object *)

(** [self.jail]: the parts of the jail object the configuration touches. *)
Record jail_env : Type := mkJail {
  rc_conf : dict;
  humanreadable_name : string
}.

Record jail_config : Type := mkJC {
  data : dict;                   (** [self.data], the plain store *)
  special_properties : dict;     (** [self.special_properties] *)
  tags : option pyval;           (** [self.tags], once [_set_tags] ran *)
  jail : option jail_env;        (** [self.jail] *)
  defaults : dict;               (** what [self.defaults[key]] finds *)
  helpers_attr : bool            (** whether [libiocage.helpers] resolves *)
}.

Definition with_data (st : jail_config) (d : dict) : jail_config :=
  mkJC d (special_properties st) (tags st) (jail st) (defaults st)
       (helpers_attr st).

Definition with_special (st : jail_config) (d : dict) : jail_config :=
  mkJC (data st) d (tags st) (jail st) (defaults st) (helpers_attr st).

Definition with_tags (st : jail_config) (t : pyval) : jail_config :=
  mkJC (data st) (special_properties st) (Some t) (jail st) (defaults st)
       (helpers_attr st).

Definition with_jail (st : jail_config) (j : jail_env) : jail_config :=
  mkJC (data st) (special_properties st) (tags st) (Some j) (defaults st)
       (helpers_attr st).

(** ** A state and exception monad *)

Definition M (A : Type) : Type := jail_config -> res A * jail_config.

Definition ret {A} (a : A) : M A := fun st => (Ok a, st).

Definition bind {A B} (m : M A) (k : A -> M B) : M B :=
  fun st => match m st with
            | (Ok a, st') => k a st'
            | (Err e, st') => (Err e, st')
            end.

Definition raise {A} (e : exn) : M A := fun st => (Err e, st).

Definition lift {A} (r : res A) : M A := fun st => (r, st).

Definition get_state : M jail_config := fun st => (Ok st, st).

Definition put_state (st : jail_config) : M unit := fun _ => (Ok tt, st).

(** [try: m except: h] *)
Definition try_except {A} (m : M A) (h : M A) : M A :=
  fun st => match m st with
            | (Ok a, st') => (Ok a, st')
            | (Err _, st') => h st'
            end.

Notation "x <- m ;; k" := (bind m (fun x => k))
  (at level 61, m at next level, right associativity).
Notation "m ;;; k" := (bind m (fun _ => k))
  (at level 61, right associativity).

Definition rbind {A B} (m : res A) (k : A -> res B) : res B :=
  match m with Ok a => k a | Err e => Err e end.

Notation "x <-? m ;; k" := (rbind m (fun x => k))
  (at level 61, m at next level, right associativity).

(** [self.data[k] = v] *)
Definition data_set (k : string) (v : pyval) : M unit :=
  st <- get_state ;; put_state (with_data st (dset (data st) k v)).

(** [del self.data[k]] *)
Definition data_del (k : string) : M unit :=
  st <- get_state ;;
  match ddel (data st) k with
  | Some d => put_state (with_data st d)
  | None => raise KeyError
  end.

Definition special_set (k : string) (v : pyval) : M unit :=
  st <- get_state ;; put_state (with_special st (dset (special_properties st) k v)).

Definition data_get (st : jail_config) (k : string) : res pyval :=
  of_opt KeyError (dget (data st) k).

(** [len(v)] *)
Definition py_len (v : pyval) : res nat :=
  match v with
  | VList l => Ok (List.length l)
  | VStr s => Ok (String.length s)
  | _ => Err TypeError
  end.

(** The keys that have a [_set_<key>] method. *)
Definition setter_keys : list string :=
  ["name"; "type"; "basejail"; "clonejail"; "ip4_addr"; "ip6_addr";
   "interfaces"; "defaultrouter"; "defaultrouter6"; "vnet";
   "jail_zfs_dataset"; "jail_zfs"; "resolver"; "login_flags"; "tags"].

(** The attributes [self.__getattribute__(key)] finds on a [JailConfig]:
    its instance attributes, properties and public methods (its own and
    those of [dict]), and [tags] once [_set_tags] stored it. [JailConfig]
    has no attribute [id]. *)
Definition attribute_names : list string :=
  ["logger"; "data"; "special_properties"; "jail"; "fstab";
   "defaults_file"; "_defaults"; "defaults"; "all_properties";
   "clone"; "read"; "update_special_property"; "attach_special_property";
   "save"; "save_json"; "get_string"; "set"; "stringify";
   "keys"; "items"; "values"; "get"; "pop"; "popitem"; "setdefault";
   "update"; "clear"; "copy"; "fromkeys"].

(** The keys that have a [_get_<key>] method. *)
Definition getter_keys : list string :=
  ["type"; "basejail"; "clonejail"; "ip4_addr"; "ip6_addr"; "interfaces";
   "defaultrouter"; "defaultrouter6"; "vnet"; "jail_zfs_dataset"; "jail_zfs";
   "resolver"; "cloned_release"; "basejail_type"; "login_flags";
   "host_hostname"; "host_hostuuid"].

(** A key that [self[key]] and [self[key] = value] treat as an entry of
    [self.data] only: it names no attribute and no [_get_] or [_set_]
    method, and is not a private name. *)
Definition plain_key (k : string) : bool :=
  negb (String.prefix "_" k) &&
  negb (existsb (String.eqb k)
          ("tags" :: setter_keys ++ getter_keys ++ attribute_names)).

Definition getattr (st : jail_config) (key : string) : res pyval :=
  if String.eqb key "tags" then of_opt AttributeError (tags st)
  else if existsb (String.eqb key) attribute_names
  then Ok (VObj "attribute" key)
  else Err AttributeError.

(** [JailConfig.stringify]: with [enabled] it evaluates the expression
    [libiocage.helpers.to_string], which is the function object itself
    when the attribute resolves and an [AttributeError] otherwise. *)
Definition stringify (st : jail_config) (v : pyval) (enabled : bool)
  : res pyval :=
  if enabled then
    if helpers_attr st then Ok (VFun "to_string") else Err AttributeError
  else Ok v.

(* ------------------------------------------------------------------ *)
(** ** Property access: [__getitem_user], [__getitem__], [get_string] *)

Section JailConfigModel.

(** The special-property handler classes are not in the sources; the model
    is stated for every behaviour of their constructors. A handler is a
    value whose [str()] is its serialized form; an [Err] is an exception
    raised by the constructor (for example on an invalid address). *)
Variable JailConfigAddresses :
  pyval -> string (* property_name *) -> bool (* skip_on_error *) -> res pyval.
Variable JailConfigInterfaces : pyval -> res pyval.
(** [JailConfigResolver(jail_config=self).update(notify=False)]: the
    resolver handler built from the plain store. *)
Variable JailConfigResolver : dict -> pyval.
(** The serialized form a resolver takes after [update(value)]. *)
Variable resolver_serialize : pyval -> string.
(** [str.__hash__], salted per process. *)
Variable str_hash : string -> Z.

(** The [_get_<key>] methods. [self_get] is [self[...]] (that is
    [__getitem__] without [string]); [Err AttributeError] is returned for a
    key that has no getter. *)
Definition getter (self_get : string -> res pyval) (st : jail_config)
  (key : string) : res pyval :=
  if String.eqb key "type" then
    b <-? self_get "basejail" ;;
    if truthy b then Ok (VStr "basejail") else
    c <-? self_get "clonejail" ;;
    if truthy c then Ok (VStr "clonejail") else Ok (VStr "jail")
  else if String.eqb key "basejail" then
    v <-? data_get st "basejail" ;; Ok (parse_user_input v)
  else if String.eqb key "clonejail" then
    v <-? data_get st "clonejail" ;; Ok (parse_user_input v)
  else if String.eqb key "ip4_addr" then
    Ok (match dget (special_properties st) "ip4_addr" with
        | Some h => h | None => VNone end)
  else if String.eqb key "ip6_addr" then
    Ok (match dget (special_properties st) "ip6_addr" with
        | Some h => h | None => VNone end)
  else if String.eqb key "interfaces" then
    of_opt KeyError (dget (special_properties st) "interfaces")
  else if String.eqb key "defaultrouter" || String.eqb key "defaultrouter6" then
    v <-? data_get st key ;;
    if py_eqb v (VStr "none") || py_eqb v VNone then Ok VNone else Ok v
  else if String.eqb key "vnet" then
    v <-? data_get st "vnet" ;; Ok (parse_user_input v)
  else if String.eqb key "jail_zfs_dataset" then
    match dget (data st) "jail_zfs_dataset" with
    | None => Ok (VList [])
    | Some (VStr s) => Ok (VList (PyStr.split_ws s))
    | Some _ => Err AttributeError
    end
  else if String.eqb key "jail_zfs" then
    let default_jail_zfs :=
      match (l <-? self_get "jail_zfs_dataset" ;; py_len l) with
      | Ok n => VBool (Nat.ltb 0 n)
      | Err _ => VBool false
      end in
    let enabled :=
      match data_get st "jail_zfs" with
      | Ok v => parse_user_input v
      | Err _ => default_jail_zfs
      end in
    if negb (truthy enabled) then
      l <-? self_get "jail_zfs_dataset" ;;
      n <-? py_len l ;;
      if Nat.ltb 0 n then Err JailConfigZFSIsNotAllowed else Ok enabled
    else Ok enabled
  else if String.eqb key "resolver" then
    match dget (special_properties st) "resolver" with
    | Some h => Ok h
    | None => Ok (JailConfigResolver (data st))
    end
  else if String.eqb key "cloned_release" then
    match dget (data st) "cloned_release" with
    | Some v => Ok v
    | None => self_get "release"
    end
  else if String.eqb key "basejail_type" then
    match dget (data st) "basejail_type" with
    | Some v => Ok v
    | None =>
        match self_get "basejail" with
        | Ok b => if truthy b then Ok (VStr "nullfs") else Ok VNone
        | Err _ => Ok VNone
        end
    end
  else if String.eqb key "login_flags" then
    match dget (data st) "login_flags" with
    | Some (VStr s) =>
        Ok (VObj "JailConfigList" (PyStr.join " " (PyStr.split_ws s)))
    | Some _ => Err AttributeError
    | None => Ok (VObj "JailConfigList" "-f root")
    end
  else if String.eqb key "host_hostname" then
    match dget (data st) "host_hostname" with
    | Some v => Ok v
    | None =>
        match jail st with
        | Some j => Ok (VStr (humanreadable_name j))
        | None => Err AttributeError
        end
    end
  else if String.eqb key "host_hostuuid" then
    match dget (data st) "host_hostuuid" with
    | Some v => Ok v
    | None => self_get "id"
    end
  else Err AttributeError.

(** [__getitem_user(key, string)]: attribute, then getter, then plain
    store; each tier's exception falls through to the next. *)
Definition getitem_user_with (self_get : string -> res pyval)
  (st : jail_config) (key : string) (string : bool) : res pyval :=
  match (v <-? getattr st key ;; stringify st v string) with
  | Ok r => Ok r
  | Err _ =>
    match (v <-? getter self_get st key ;; stringify st v string) with
    | Ok r => Ok r
    | Err _ =>
      match (v <-? data_get st key ;; stringify st v string) with
      | Ok r => Ok r
      | Err _ => Err KeyError
      end
    end
  end.

(** [__getitem__(key, string)]: the user tiers, then the defaults. The
    getters nest [self[...]] at most two deep; [fuel] bounds that nesting. *)
Fixpoint getitem_fuel (fuel : nat) (st : jail_config) (key : string)
  (string : bool) : res pyval :=
  match fuel with
  | O => Err KeyError
  | S f =>
      match getitem_user_with (fun k => getitem_fuel f st k false)
                              st key string with
      | Ok v => Ok v
      | Err _ => of_opt KeyError (dget (defaults st) key)
      end
  end.

Definition getitem_depth : nat := 4.

(** [self[key]] *)
Definition getitem (st : jail_config) (key : string) : res pyval :=
  getitem_fuel getitem_depth st key false.

(** [self.__getitem_user(key)] as [set] calls it. *)
Definition getitem_user (st : jail_config) (key : string) (string : bool)
  : res pyval :=
  getitem_user_with (fun k => getitem_fuel getitem_depth st k false)
                    st key string.

(** [JailConfig.get_string] *)
Definition get_string (st : jail_config) (key : string) : res pyval :=
  getitem_fuel getitem_depth st key true.

Definition get_item (key : string) : M pyval :=
  st <- get_state ;; lift (getitem st key).

(* ------------------------------------------------------------------ *)
(** ** Property assignment: [__setitem__], [set], [clone], [__init__] *)

(** [update_special_property(name)] *)
Definition update_special_property (name : string) : M unit :=
  st <- get_state ;;
  match dget (special_properties st) name with
  | Some h => data_set name (VStr (py_str h))
  | None => ret tt
  end.

(** [_skip_on_error]: [kw] is the [skip_on_error] keyword
    argument, [None] when it was not passed. A missing key raises a
    [KeyError], which the [except AttributeError] does not catch. *)
Definition skip_on_error_of (kw : option pyval) : M bool :=
  match kw with
  | None => raise KeyError
  | Some v => ret (py_eqb v (VBool true))
  end.

(** [_set_name(name)]; [self_set] is [self[k] = v]. The guard reads the
    attribute [self.id]; its exception is swallowed. *)
Definition set_name (self_set : string -> pyval -> option pyval -> M unit)
  (name : pyval) : M unit :=
  let body :=
    match name with
    | VStr s =>
        if validate_name s then self_set "id" name None
        else match uuid_str s with
             | Ok u => self_set "id" (VStr u) None
             | Err _ => raise InvalidJailName
             end
    | _ => raise TypeError  (* re.findall on a non-string *)
    end in
  st <- get_state ;;
  match getattr st "id" with
  | Ok v => if py_eqb v name then ret tt else body
  | Err _ => body
  end.

Definition rc_conf_set (k : string) (v : pyval) : M unit :=
  st <- get_state ;;
  match jail st with
  | None => raise AttributeError       (* None.rc_conf *)
  | Some j =>
      put_state (with_jail st (mkJail (dset (rc_conf j) k v)
                                      (humanreadable_name j)))
  end.

(** [__setitem__(key, value, **kwargs)]: the value is parsed, then the
    [_set_<key>] method runs if there is one, else the plain store is
    written. The setters nest [self[...] = ...] one deep ([_set_type],
    [_set_name]); [fuel] bounds that nesting. *)
Fixpoint setitem (fuel : nat) (key : string) (value : pyval)
  (kw : option pyval) : M unit :=
  match fuel with
  | O => raise KeyError
  | S f =>
  let self_set := setitem f in
  let v := parse_user_input value in
  if String.eqb key "name" then set_name self_set v
  else if String.eqb key "type" then
    if py_eqb v (VStr "basejail") then
      self_set "basejail" (VBool true) None ;;;
      self_set "clonejail" (VBool false) None ;;;
      data_set "type" (VStr "jail")
    else if py_eqb v (VStr "clonejail") then
      self_set "basejail" (VBool false) None ;;;
      self_set "clonejail" (VBool true) None ;;;
      data_set "type" (VStr "jail")
    else data_set "type" v
  else if String.eqb key "basejail" then
    legacy <- get_item "legacy" ;;
    if truthy legacy then data_set "basejail" (VStr (to_string v "on" "off" "none"))
    else data_set "basejail" (VStr (to_string v "yes" "no" "none"))
  else if String.eqb key "clonejail" then
    data_set "clonejail" (VStr (to_string v "on" "off" "none"))
  else if String.eqb key "ip4_addr" then
    h <- lift (JailConfigAddresses v "ip4_addr" false) ;;
    special_set "ip4_addr" h ;;;
    update_special_property "ip4_addr"
  else if String.eqb key "ip6_addr" then
    skip <- skip_on_error_of kw ;;
    h <- lift (JailConfigAddresses v "ip6_addr" skip) ;;
    special_set "ip6_addr" h ;;;
    update_special_property "ip6_addr" ;;;
    rc_conf_set "rtsold_enable"
      (VBool (PyStr.contains "accept_rtadv" (py_str v)))
  else if String.eqb key "interfaces" then
    h <- lift (JailConfigInterfaces v) ;;
    special_set "interfaces" h ;;;
    update_special_property "interfaces"
  else if String.eqb key "defaultrouter" || String.eqb key "defaultrouter6" then
    data_set key (match v with VNone => VStr "none" | _ => v end)
  else if String.eqb key "vnet" then
    data_set "vnet" (VStr (to_string v "on" "off" "none"))
  else if String.eqb key "jail_zfs_dataset" then
    match v with
    | VStr s => data_set "jail_zfs_dataset" (VStr (PyStr.join " " [s]))
    | VList l => data_set "jail_zfs_dataset" (VStr (PyStr.join " " l))
    | _ => raise TypeError
    end
  else if String.eqb key "jail_zfs" then
    if py_eqb v VNone || py_eqb v (VStr "") then data_del "jail_zfs"
    else data_set "jail_zfs" (VStr (to_string v "on" "off" "none"))
  else if String.eqb key "resolver" then
    (* Modelled from the spec: [JailConfigResolver.update(value,
       notify=True)] pushes the resolver's serialized form into the plain
       store. *)
    match v with
    | VStr _ =>
        data_set "resolver" v ;;;
        _ <- get_item "resolver" ;;
        data_set "resolver" (VStr (resolver_serialize v))
    | _ => data_set "resolver" (VStr (resolver_serialize v))
    end
  else if String.eqb key "login_flags" then
    match v with
    | VNone => try_except (data_del "login_flags") (ret tt)
    | VList l => data_set "login_flags" (VStr (PyStr.join " " l))
    | VStr s => data_set "login_flags" (VStr s)
    | _ => raise InvalidJailConfigValue
    end
  else if String.eqb key "tags" then
    match v with
    | VStr s =>
        st <- get_state ;;
        put_state (with_tags st (VList (PyStr.split_char "," s)))
    | VList l =>
        st <- get_state ;;
        put_state (with_tags st
          (VObj "set" ("{" ++ PyStr.join ", " (map py_repr_str l) ++ "}")))
    | VObj "set" _ =>
        st <- get_state ;; put_state (with_tags st v)
    | _ => raise InvalidJailConfigValue
    end
  else data_set key v
  end.

(** [self[key] = value] with keyword arguments [kw]. *)
Definition set_item (key : string) (value : pyval) (kw : option pyval) : M unit :=
  setitem getitem_depth key value kw.

Definition hash_of (r : res pyval) : option Z :=
  match r with
  | Ok v => Some (str_hash (py_str v))
  | Err _ => None
  end.

Definition opt_Z_eqb (x y : option Z) : bool :=
  match x, y with
  | Some a, Some b => Z.eqb a b
  | None, None => true
  | _, _ => false
  end.

(** [JailConfig.set(key, value, **kwargs)] *)
Definition jc_set (key : string) (value : pyval) (kw : option pyval) : M bool :=
  st <- get_state ;;
  let hash_before := hash_of (getitem_user st key false) in
  set_item key value kw ;;;
  st' <- get_state ;;
  let hash_after := hash_of (getitem_user st' key false) in
  ret (negb (opt_Z_eqb hash_before hash_after)).

Definition id_aliases : list string := ["id"; "name"; "uuid"].

Fixpoint clone_loop (current_id : pyval) (items : dict) (skip : bool)
  : M unit :=
  match items with
  | [] => ret tt
  | (key, value) :: rest =>
      let value :=
        if existsb (String.eqb key) id_aliases && negb (py_eqb current_id VNone)
        then current_id else value in
      set_item key value (Some (VBool skip)) ;;;
      clone_loop current_id rest skip
  end.

(** [JailConfig.clone(data, skip_on_error)] *)
Definition clone (items : dict) (skip : bool) : M unit :=
  current_id <- get_item "id" ;;
  clone_loop current_id items skip.

(** The first of [id], [name], [uuid] that is a key of [items]. *)
Definition first_alias (items : dict) : option string :=
  find (fun k => match dget items k with Some _ => true | None => false end)
       id_aliases.

(** [JailConfig.__init__(data, jail, ...)] after [dict.__init__]. *)
Definition init_body (items : dict) : M unit :=
  set_item "legacy" (VBool false) None ;;;
  set_item "id" VNone None ;;;
  match first_alias items with
  | Some k =>
      match dget items k with
      | Some v => set_item "name" v None
      | None => ret tt
      end
  | None => ret tt
  end ;;;
  set_item "legacy"
    (VBool (match dget items "legacy" with
            | Some v => py_eqb v (VBool true)
            | None => false
            end)) None ;;;
  clone items false.

(** A fresh object: empty stores, then [__init__]. *)
Definition jc_new (items : dict) (j : option jail_env) (dflt : dict)
  (helpers : bool) : res unit * jail_config :=
  init_body items (mkJC [] [] None j dflt helpers).

(** The probes and readers of the three encodings ([JailConfigJSON],
    [JailConfigLegacy], [JailConfigZFS]) are not in the sources; [read] is
    stated for every behaviour of them. *)
Variable JailConfigJSON_exists : jail_config -> bool.
Variable JailConfigLegacy_exists : jail_config -> bool.
Variable JailConfigZFS_exists : jail_config -> bool.
Variable JailConfigJSON_read : M unit.
Variable JailConfigLegacy_read : M unit.
Variable JailConfigZFS_read : M unit.

(** [JailConfig.read] *)
Definition jc_read : M (option string) :=
  st <- get_state ;;
  if JailConfigJSON_exists st then
    JailConfigJSON_read ;;;
    set_item "legacy" (VBool false) None ;;;
    ret (Some "json")
  else if JailConfigLegacy_exists st then
    JailConfigLegacy_read ;;;
    set_item "legacy" (VBool true) None ;;;
    ret (Some "ucl")
  else if JailConfigZFS_exists st then
    JailConfigZFS_read ;;;
    set_item "legacy" (VBool true) None ;;;
    ret (Some "zfs")
  else ret None.

End JailConfigModel.

(* ------------------------------------------------------------------ *)
(** ** [JailConfigFstab] *)

Module Fstab.

(** An [FstabLine] (a dict with these seven keys). *)
Record line : Type := mkLine {
  source : string;
  destination : string;
  ftype : string;
  options : string;
  dump : string;
  passnum : string;
  comment : option string
}.

Definition line_eq_dec (x y : line) : {x = y} + {x <> y}.
Proof. decide equality; try apply string_dec.
       decide equality; apply string_dec. Defined.

(** [x == y] on two lines compares them as dicts, field by field. *)
Definition line_eqb (x y : line) : bool :=
  if line_eq_dec x y then true else false.

Definition AUTO_COMMENT_IDENTIFIER : string := "iocage-auto".

Inductive log_entry : Type :=
| LogInvalidLine (fstab_file_path : string)
| LogDuplicate (destination : string).

(** What the fstab reads through [self.jail]: its configuration, its path,
    the releases' mountpoint, and the list [get_basedir_list] returns for
    the host's distribution. *)
Record jail_view : Type := mkView {
  config : jail_config;
  jail_path : string;
  releases_mountpoint : string;
  basedirs : list string
}.

(** The [set] part of a [JailConfigFstab], in the order its elements are
    iterated (the claims below do not depend on that order), and the log. *)
Record fstab : Type := mkFstab {
  entries : list line;
  logs : list log_entry;
  view : jail_view
}.

Section WithResolver.
Variable JailConfigResolver : dict -> pyval.

Definition cfg_get (fs : fstab) (key : string) : res pyval :=
  getitem JailConfigResolver (config (view fs)) key.

Definition fstab_file_path (fs : fstab) : string := jail_path (view fs) ++ "/fstab".

Fixpoint basejail_loop (fs : fstab) (dirs : list string) : res (list line) :=
  match dirs with
  | [] => Ok []
  | basedir :: rest =>
      let release_directory := releases_mountpoint (view fs) in
      cloned_release <-? cfg_get fs "cloned_release" ;;
      let src := release_directory ++ "/" ++ py_str cloned_release
                 ++ "/root/" ++ basedir in
      let dst := jail_path (view fs) ++ "/root/" ++ basedir in
      others <-? basejail_loop fs rest ;;
      Ok (mkLine src dst "nullfs" "ro" "0" "0" (Some "iocage-auto") :: others)
  end.

(** The [basejail_lines] property. *)
Definition basejail_lines (fs : fstab) : res (list line) :=
  basejail <-? cfg_get fs "basejail" ;;
  basejail_type <-? cfg_get fs "basejail_type" ;;
  if negb (truthy basejail && py_eqb basejail_type (VStr "nullfs")) then Ok []
  else basejail_loop fs (basedirs (view fs)).

(** [__iter__]: the stored lines, then the basejail lines. *)
Definition iter (fs : fstab) : res (list line) :=
  extra <-? basejail_lines fs ;; Ok (entries fs ++ extra)%list.

(** [__contains__]: it returns from the first iteration of its loop, and
    falls off the end ([None], false) when there is nothing to iterate. *)
Definition fstab_contains (fs : fstab) (value : line) : res bool :=
  all <-? iter fs ;;
  match all with
  | [] => Ok false
  | entry :: _ => Ok (String.eqb (destination value) (destination entry))
  end.

(** [add_line]: [set.add], which keeps the set unchanged when an equal
    element is present. Equal lines have the same destination, hence the
    same hash, so membership is equality with some element. *)
Definition add_line (fs : fstab) (l : line) : fstab :=
  mkFstab (if existsb (line_eqb l) (entries fs) then entries fs
           else (entries fs ++ [l])%list)
          (logs fs) (view fs).

(** [add(source, destination, type="nullfs", options="ro", dump="0",
    passnum="0", comment=None)] *)
Definition add (fs : fstab) (src dst : string)
  (type : string) (opts : string) (dmp : string) (pass : string)
  (cmt : option string) : fstab :=
  add_line fs (mkLine src dst type opts dmp pass cmt).

Definition add_default (fs : fstab) (src dst : string) : fstab :=
  add fs src dst "nullfs" "ro" "0" "0" None.

Definition log (fs : fstab) (e : log_entry) : fstab :=
  mkFstab (entries fs) (logs fs ++ [e])%list (view fs).

Definition clear (fs : fstab) : fstab := mkFstab [] (logs fs) (view fs).

(** One iteration of the loop of [parse_lines]. *)
Definition parse_line (ignore_auto_created : bool) (fs : fstab) (raw : string)
  : res fstab :=
  let split :=
    match PyStr.split_once "#" raw with
    | Some (l, c) =>
        let c := PyStr.strip_chars "# " c in
        if ignore_auto_created && String.eqb c AUTO_COMMENT_IDENTIFIER
        then None
        else Some (l, Some c)
    | None => Some (raw, None)
    end in
  match split with
  | None => Ok fs                                   (* continue *)
  | Some (l, cmt) =>
      let l := PyStr.strip l in
      if String.eqb l "" then Ok fs                (* continue *)
      else
        let fragments := PyStr.split_ws l in
        match fragments with
        | [f0; f1; f2; f3; f4; f5] =>
            let new_line := mkLine f0 f1 f2 f3 f4 f5 cmt in
            dup <-? fstab_contains fs new_line ;;
            let fs := if dup then log fs (LogDuplicate f1) else fs in
            Ok (add_line fs new_line)
        | _ => Ok (log fs (LogInvalidLine (fstab_file_path fs)))
        end
  end.

Fixpoint parse_loop (ignore_auto_created : bool) (fs : fstab)
  (raw_lines : list string) : res fstab * fstab :=
  match raw_lines with
  | [] => (Ok fs, fs)
  | raw :: rest =>
      match parse_line ignore_auto_created fs raw with
      | Ok fs' => parse_loop ignore_auto_created fs' rest
      | Err e => (Err e, fs)
      end
  end.

(** [parse_lines(input, ignore_auto_created)]: the first component is the
    outcome, the second the object afterwards (also when it raised). *)
Definition parse_lines (fs : fstab) (input : string)
  (ignore_auto_created : bool) : res fstab * fstab :=
  parse_loop ignore_auto_created (clear fs)
             (PyStr.split_char (ascii_of_nat 10) input).

End WithResolver.

(** An fstab that holds no line carrying the automatic comment. *)
Definition no_auto (fs : fstab) : Prop :=
  forall l, In l (entries fs) -> comment l <> Some AUTO_COMMENT_IDENTIFIER.

(** The generated line of a base directory. *)
Definition generated (fs : fstab) (cloned_release : pyval) (basedir : string)
  : line :=
  mkLine (releases_mountpoint (view fs) ++ "/" ++ py_str cloned_release
          ++ "/root/" ++ basedir)
         (jail_path (view fs) ++ "/root/" ++ basedir)
         "nullfs" "ro" "0" "0" (Some AUTO_COMMENT_IDENTIFIER).


Definition newline : string := String (ascii_of_nat 10) EmptyString.






End Fstab.

(* ------------------------------------------------------------------ *)
(** ** [ConfigJSON] *)

Module ConfigJSON.

(** A JSON document as [json.load] returns it. *)
#[warnings="-register-all"]
Inductive json : Type :=
| JNull
| JBool (b : bool)
| JNum (literal : string)
| JStr (s : string)
| JArr (l : list json)
| JObj (kv : list (string * json)).

(** A file on disk: missing, present but not readable, or with a text. *)
Inductive file : Type :=
| FileAbsent
| FileUnreadable
| FileText (content : string).

(** [open(file, "r")] followed by reading the text. *)
Definition open_read (f : file) : res string :=
  match f with
  | FileAbsent => Err OSError          (* FileNotFoundError *)
  | FileUnreadable => Err OSError      (* PermissionError, decoding errors *)
  | FileText s => Ok s
  end.

Section Read.
(** [json.loads] of the standard library; [Err] is a [JSONDecodeError]. *)
Variable json_load : string -> res json.

(** [ConfigJSON.read]: [try: ... except: return {}]. *)
Definition read (f : file) : res json :=
  match (s <-? open_read f ;; json_load s) with
  | Ok j => Ok j
  | Err _ => Ok (JObj [])
  end.
End Read.

Definition dq : ascii := ascii_of_nat 34.
Definition bs : ascii := ascii_of_nat 92.
Definition nl : string := String (ascii_of_nat 10) EmptyString.

Definition hex4 (n : nat) : string :=
  String (hex_digit (n / 4096 mod 16)) (String (hex_digit (n / 256 mod 16))
    (String (hex_digit (n / 16 mod 16)) (String (hex_digit (n mod 16)) EmptyString))).

(** The escaping of [json.dumps] with [ensure_ascii=True]: characters
    outside [' '..'~'] and the quote and backslash are escaped. *)
Definition escape_char (c : ascii) : string :=
  let n := nat_of_ascii c in
  if Nat.eqb n 34 then String bs (String dq EmptyString)
  else if Nat.eqb n 92 then String bs (String bs EmptyString)
  else if Nat.eqb n 10 then String bs "n"
  else if Nat.eqb n 13 then String bs "r"
  else if Nat.eqb n 9 then String bs "t"
  else if Nat.eqb n 8 then String bs "b"
  else if Nat.eqb n 12 then String bs "f"
  else if Nat.ltb n 32 || Nat.ltb 126 n then String bs ("u" ++ hex4 n)
  else String c EmptyString.

Definition encode_string (s : string) : string :=
  String dq (String.concat "" (map escape_char (PyStr.to_list s))
             ++ String dq EmptyString).

(** [sort_keys=True]: keys in the order of [str] comparison. *)
Fixpoint insert_kv (kv : string * string) (l : list (string * string))
  : list (string * string) :=
  match l with
  | [] => [kv]
  | kv' :: rest =>
      match String_as_OT.compare (fst kv) (fst kv') with
      | Gt => kv' :: insert_kv kv rest
      | _ => kv :: l
      end
  end.

Fixpoint sort_kv (l : list (string * string)) : list (string * string) :=
  match l with
  | [] => []
  | kv :: rest => insert_kv kv (sort_kv rest)
  end.

Definition dumps_item (kv : string * string) : string :=
  "    " ++ encode_string (fst kv) ++ ": " ++ encode_string (snd kv).

(** The text [json.dumps] prints for the items in the given order, with
    [indent=4]. *)
Definition render (items : list (string * string)) : string :=
  match items with
  | [] => "{}"
  | _ =>
      "{" ++ nl ++ PyStr.join ("," ++ nl) (map dumps_item items) ++ nl ++ "}"
  end.

(** [json.dumps(d, sort_keys=True, indent=4)] for a dict of strings. *)
Definition dumps (d : list (string * string)) : string := render (sort_kv d).

(** The value [to_json] stores under a key. *)
Definition coerce (kv : string * pyval) : string * string :=
  (fst kv, to_string (snd kv) "yes" "no" "none").

(** [to_json(data)] *)
Definition to_json (d : dict) : string := dumps (map coerce d).

(** An open file object: its text and position. *)
Record handle : Type := mkHandle { hcontent : string; hpos : nat }.

(** [open(file, "w")] truncates. *)
Definition open_write (f : file) : handle := mkHandle "" 0.

(** [write(s)] overwrites from the position on. *)
Definition hwrite (h : handle) (s : string) : handle :=
  let p := hpos h + String.length s in
  mkHandle (substring 0 (hpos h) (hcontent h) ++ s
            ++ substring p (String.length (hcontent h) - p) (hcontent h)) p.

(** [truncate()] cuts at the position. *)
Definition htruncate (h : handle) : handle :=
  mkHandle (substring 0 (hpos h) (hcontent h)) (hpos h).

(** [ConfigJSON.write(data)]: the file afterwards. *)
Definition write (f : file) (d : dict) : file :=
  FileText (hcontent (htruncate (hwrite (open_write f) (to_json d)))).

(** Modelled from the spec: [JailConfigJSON.save(self)] (not in the
    sources) writes the configuration's plain store through the structured
    encoding. *)
Definition save_json (st : jail_config) (f : file) : file := write f (data st).

Section Save.
Variable JailConfigResolver : dict -> pyval.
(** [JailConfigLegacy.save(self)] (not in the sources), on the legacy file. *)
Variable legacy_save : jail_config -> file -> file.

(** [JailConfig.save]: the backing file afterwards. *)
Definition save (st : jail_config) (f : file) : res file :=
  legacy <-? getitem JailConfigResolver st "legacy" ;;
  if negb (truthy legacy) then Ok (save_json st f) else Ok (legacy_save st f).
End Save.

(** The order of the keys [json.dumps(sort_keys=True)] produces. *)
Definition key_lt (a b : string * string) : Prop := String_as_OT.lt (fst a) (fst b).

Definition quoted (s : string) : string := String dq (s ++ String dq EmptyString).

End ConfigJSON.

(* ------------------------------------------------------------------ *)
(** ** [libiocage/lib/Resource.py] *)

Module Resource.

Definition ZFS_PROPERTY_PREFIX : string := "org.freebsd.iocage:".

Definition CONFIG_TYPES : list string := ["json"; "legacy"; "zfs"].

(** What [_config_type] holds: [None], an integer or a string. *)
Inductive ctype : Type :=
| CNone
| CInt (n : nat)
| CStr (s : string).

(** [x == y] *)
Definition ctype_eqb (x y : ctype) : bool :=
  match x, y with
  | CNone, CNone => true
  | CInt a, CInt b => Nat.eqb a b
  | CStr a, CStr b => String.eqb a b
  | _, _ => false
  end.

(** [CONFIG_TYPES.index(x)]: the position of the first element equal to
    [x], or a [ValueError]. *)
Fixpoint index (l : list string) (x : ctype) : res nat :=
  match l with
  | [] => Err ValueError
  | y :: r =>
      if ctype_eqb (CStr y) x then Ok 0
      else n <-? index r x ;; Ok (S n)
  end.

(** The class attributes of [Resource] and of [DefaultResource]. *)
Record resource_class : Type := mkClass {
  DEFAULT_JSON_FILE : string;
  DEFAULT_LEGACY_FILE : string
}.

Definition Resource_class : resource_class := mkClass "config.json" "config".
Definition DefaultResource_class : resource_class :=
  mkClass "defaults.json" "defaults".

Record zfs_dataset : Type := mkDataset {
  mountpoint : string;
  properties : list string
}.

Record resource : Type := mkResource {
  cls : resource_class;
  _config_file : option string;
  _config_type : ctype;
  dataset : option zfs_dataset  (** the [dataset] property; [None] in [Resource] *)
}.

Definition with_config_type (r : resource) (t : ctype) : resource :=
  mkResource (cls r) (_config_file r) t (dataset r).

(** [config_type.setter] *)
Definition set_config_type (r : resource) (value : ctype) : res resource :=
  n <-? index CONFIG_TYPES value ;; Ok (with_config_type r (CInt n)).

(** [Resource.__init__(config_type, config_file)] *)
Definition init (c : resource_class) (ds : option zfs_dataset)
  (config_type : string) (config_file : option string) : res resource :=
  let r := mkResource c config_file CNone ds in
  n <-? index CONFIG_TYPES (CStr config_type) ;;
  set_config_type r (CInt n).

(** [os.path.join(a, b)] *)
Definition path_join (a b : string) : string :=
  let ends_with_sep :=
    match rev (PyStr.to_list a) with
    | c :: _ => Ascii.eqb c "/"%char
    | [] => false
    end in
  if String.prefix "/" b then b
  else if String.eqb a "" || ends_with_sep then a ++ b
  else a ++ "/" ++ b.

Section Find.
(** [os.path.isfile] *)
Variable isfile : string -> bool.

(** [abspath(relative_path)] *)
Definition abspath (r : resource) (rel : string) : res string :=
  match dataset r with
  | None => Err AttributeError
  | Some ds => Ok (path_join (mountpoint ds) rel)
  end.

(** [_find_config_type] *)
Definition find_config_type (r : resource) : res ctype :=
  p <-? abspath r (DEFAULT_JSON_FILE (cls r)) ;;
  if isfile p then (n <-? index CONFIG_TYPES (CStr "json") ;; Ok (CInt n)) else
  p <-? abspath r (DEFAULT_LEGACY_FILE (cls r)) ;;
  if isfile p then (n <-? index CONFIG_TYPES (CStr "legacy") ;; Ok (CInt n)) else
  match dataset r with
  | None => Err AttributeError
  | Some ds =>
      if existsb (String.prefix ZFS_PROPERTY_PREFIX) (properties ds)
      then (n <-? index CONFIG_TYPES (CStr "zfs") ;; Ok (CInt n))
      else Ok (CStr (nth 0 CONFIG_TYPES ""))
  end.

(** The [config_type] property: the object afterwards is returned too. *)
Definition get_config_type (r : resource) : res ctype * resource :=
  match index CONFIG_TYPES (CStr "auto") with
  | Err e => (Err e, r)
  | Ok n =>
      if ctype_eqb (_config_type r) (CInt n) then
        match find_config_type r with
        | Ok t => (Ok t, with_config_type r t)
        | Err e => (Err e, r)
        end
      else (Ok (_config_type r), r)
  end.

(** The [config_file] property, which reads [self.config_type] once per
    comparison. *)
Definition config_file (r : resource) : res (option string) * resource :=
  match _config_file r with
  | Some f => (Ok (Some f), r)
  | None =>
      match get_config_type r with
      | (Err e, r) => (Err e, r)
      | (Ok t, r) =>
          if ctype_eqb t (CStr "json") then (Ok (Some (DEFAULT_JSON_FILE (cls r))), r)
          else match get_config_type r with
               | (Err e, r) => (Err e, r)
               | (Ok t, r) =>
                   if ctype_eqb t (CStr "legacy")
                   then (Ok (Some (DEFAULT_LEGACY_FILE (cls r))), r)
                   else (Ok None, r)
               end
      end
  end.

(** The handler classes [config_handler] chooses from. *)
Inductive handler : Type :=
| ResourceConfigJSON
| ResourceConfigZFS
| ConfigJSON.

(** The class chosen by [config_handler] before it is instantiated;
    [None] when no branch was taken and [handler] is unbound (an
    [UnboundLocalError]). [read_config] and [write_config] start with it. *)
Definition config_handler (r : resource) : res (option handler) * resource :=
  match get_config_type r with
  | (Err e, r) => (Err e, r)
  | (Ok t, r) =>
      if ctype_eqb t (CStr "json") then (Ok (Some ResourceConfigJSON), r) else
      match get_config_type r with
      | (Err e, r) => (Err e, r)
      | (Ok t, r) =>
          if ctype_eqb t (CStr "zfs") then (Ok (Some ResourceConfigZFS), r) else
          match get_config_type r with
          | (Err e, r) => (Err e, r)
          | (Ok t, r) =>
              if ctype_eqb t (CStr "json") then (Ok (Some ConfigJSON), r)
              else (Ok None, r)
          end
      end
  end.

End Find.

End Resource.

(* ------------------------------------------------------------------ *)
(** ** [libiocage/cli/get.py] *)

Module CliGet.

(** Where [cli] ends. *)
Inductive outcome : Type :=
| PrintPool                (** prints the active pool, exits with 1 *)
| NoSuchJail               (** "Jail ... does not exist", exit 1 *)
| MissingBoth              (** "Missing arguments property and jail", exit 1 *)
| MissingProp              (** "Missing argument property name or -a/--all
                               argument", exit 1 *)
| Lookup (prop : string)   (** [_lookup_jail_value(jail, prop)] *)
| ListProps (prop : option string).
                           (** the loop over [all_properties], printing
                               the keys equal to [prop] or all of them *)

(** [cli(ctx, prop, _all, _pool, jail, log_level)]; [jail_exists] is
    [Jail(identifier).exists]. *)
Definition cli (jail_exists : string -> bool) (prop jail : string)
  (all pool : bool) : outcome :=
  if pool then PrintPool else
  let prop := if String.eqb jail "" then "" else prop in
  let jail_identifier := jail in
  if negb (jail_exists jail_identifier) then NoSuchJail else
  let prop : option string := if all then None else Some prop in
  let prop :=
    match prop with
    | Some p => if String.eqb p "all" then None else Some p
    | None => None
    end in
  let is_none := match prop with None => true | Some _ => false end in
  if is_none && String.eqb jail_identifier "" && negb all then MissingBoth
  else if negb is_none && String.eqb jail_identifier "" then MissingProp
  else match prop with
       | Some p => if negb (String.eqb p "") then Lookup p else ListProps prop
       | None => ListProps prop
       end.

End CliGet.

(* ------------------------------------------------------------------ *)
(** ** Concrete collaborators, for evaluating the model on inputs *)

Module Concrete.

(** Handler constructors that accept every value. *)
Definition addresses (v : pyval) (p : string) (skip : bool) : res pyval :=
  Ok (VObj "JailConfigAddresses" (py_str v)).
Definition interfaces (v : pyval) : res pyval :=
  Ok (VObj "JailConfigInterfaces" (py_str v)).
Definition resolver (d : dict) : pyval :=
  VObj "JailConfigResolver"
       (match dget d "resolver" with Some v => py_str v | None => "" end).
Definition resolver_text (v : pyval) : string := py_str v.

(** A string hash (injective, unlike the salted one of CPython). *)
Fixpoint hash (s : string) : Z :=
  match s with
  | EmptyString => 0
  | String c r => Z.of_nat (nat_of_ascii c) + 1 + 257 * hash r
  end.

Definition jail0 : jail_env := mkJail [] "web01".

(** [JailConfig(data=items, jail=jail0)] with the given defaults. *)
Definition new_config (items : dict) (dflt : dict) (helpers : bool)
  : jail_config :=
  snd (jc_new addresses interfaces resolver resolver_text items (Some jail0)
              dflt helpers).

Definition set (key : string) (value : pyval) (kw : option pyval)
  (st : jail_config) : res bool * jail_config :=
  jc_set addresses interfaces resolver resolver_text hash key value kw st.

Definition assign (key : string) (value : pyval) (kw : option pyval)
  (st : jail_config) : res unit * jail_config :=
  set_item addresses interfaces resolver resolver_text key value kw st.

Definition bulk (items : dict) (st : jail_config) : res unit * jail_config :=
  clone addresses interfaces resolver resolver_text items false st.

Definition the_uuid : string := "4f3d2b1a-0000-0000-0000-000000000000".
Definition braced_uuid : string := "{" ++ the_uuid ++ "}".

(** A jail configuration that is not a basejail, and its empty fstab. *)
Definition plain_jail : jail_config :=
  new_config [("name", VStr "web01"); ("basejail", VStr "no")] [] true.

Definition empty_fstab : Fstab.fstab :=
  Fstab.mkFstab [] [] (Fstab.mkView plain_jail "/iocage/jails/web01"
                                    "/iocage/releases" ["bin"; "lib"]).

(** A configuration built from an empty mapping: its [id] is [None]. *)
Definition blank : jail_config := new_config [] [] true.

(** A basejail of release 13.0, and its empty fstab. *)
Definition basejail_jail : jail_config :=
  new_config [("name", VStr "web01"); ("basejail", VStr "yes");
              ("cloned_release", VStr "13.0")] [] true.

Definition basejail_fstab : Fstab.fstab :=
  Fstab.mkFstab [] [] (Fstab.mkView basejail_jail "/iocage/jails/web01"
                                    "/iocage/releases" ["bin"; "lib"]).

(** [JailConfig.read] with the given encodings present and readers that
    load nothing. *)
Definition read_with (json ucl zfs : bool) (st : jail_config)
  : res (option string) * jail_config :=
  jc_read addresses interfaces resolver resolver_text
          (fun _ => json) (fun _ => ucl) (fun _ => zfs)
          (ret tt) (ret tt) (ret tt) st.

End Concrete.

(** More sample inputs: a jail with a ZFS dataset, and an address
    constructor that rejects every value. *)
Module Samples.


Definition reject_addresses (v : pyval) (p : string) (skip : bool) : res pyval :=
  Err ValueError.

(** A jail of the basejail fstab above with one stored line of its own. *)
Definition data_fstab : Fstab.fstab :=
  Fstab.mkFstab [Fstab.mkLine "/data" "/iocage/jails/web01/root/data" "nullfs"
                              "rw" "0" "0" (Some "backup")]
                [] (Fstab.view Concrete.basejail_fstab).

End Samples.


(** Shapes of text: a word for [str.split()] (non-empty, no whitespace),
    the first character of a list not satisfying [p], and the tab that
    [_line_to_string] puts between the fields. *)
Module TextForms.



Definition tab : ascii := ascii_of_nat 9.

End TextForms.

(* ================================================================== *)
(** * Properties *)

Example uuid_str_braces :
  uuid_str "{4F3D2B1A-0000-0000-0000-000000000000}"
  = Ok "4f3d2b1a-0000-0000-0000-000000000000".
Proof. vm_compute. reflexivity. Qed.

Example uuid_str_bad : uuid_str "bad name" = Err ValueError.
Proof. vm_compute. reflexivity. Qed.

Example repr_list : py_str (VList ["[]"; "a b"]) = "['[]', 'a b']".
Proof. vm_compute. reflexivity. Qed.

Example plain_jail_data :
  data Concrete.plain_jail
  = [("legacy", VBool false); ("id", VStr "web01"); ("basejail", VStr "no")].
Proof. vm_compute. reflexivity. Qed.

(* ------------------------------------------------------------------ *)
(** ** [ConfigJSON.read] and [ConfigJSON.write] *)

Module ConfigJSONFacts.
Import ConfigJSON.

(** C8: [ConfigJSON.read] never raises, and a missing file, an unreadable
    file or a text that does not parse all give the empty mapping. *)
Theorem read_failures_give_empty_mapping (json_load : string -> res json) :
  (forall f, exists j, read json_load f = Ok j) /\
  (forall f,
     (f = FileAbsent \/ f = FileUnreadable \/
      exists s e, f = FileText s /\ json_load s = Err e) ->
     read json_load f = Ok (JObj [])).
Proof.
  split.
  - intros f. unfold read.
    destruct (s <-? open_read f ;; json_load s) as [j | e]; eauto.
  - intros f [-> | [-> | (s & e & -> & He)]]; unfold read; simpl;
      try rewrite He; reflexivity.
Qed.

Lemma read_failures_give_empty_mapping_witness :
  read (fun _ => Err JSONDecodeError) (FileText "{") = Ok (JObj []).
Proof.
  apply (proj2 (read_failures_give_empty_mapping (fun _ => Err JSONDecodeError))).
  right; right. exists "{", JSONDecodeError. split; reflexivity.
Defined.

Lemma append_empty_r (s : string) : s ++ "" = s.
Proof. induction s as [| c s IH]; simpl; [reflexivity | now rewrite IH]. Qed.

Lemma substring_empty (n m : nat) : substring n m "" = "".
Proof. destruct n, m; reflexivity. Qed.

Lemma substring_whole (s : string) : substring 0 (String.length s) s = s.
Proof. induction s as [| c s IH]; simpl; [reflexivity | now rewrite IH]. Qed.

(** Writing leaves exactly the new text, whatever the file held. *)
Lemma write_text (f : file) (d : dict) : write f d = FileText (to_json d).
Proof.
  unfold write, htruncate, hwrite, open_write; simpl.
  replace (match String.length (to_json d) with 0 | _ => "" end) with ""
    by (destruct (String.length (to_json d)); reflexivity).
  now rewrite append_empty_r, substring_whole.
Qed.

Lemma key_lt_irrefl (a : string * string) : ~ key_lt a a.
Proof.
  unfold key_lt. destruct String_as_OT.lt_strorder as [Hirr _]. apply Hirr.
Qed.

Lemma key_lt_trans (a b c : string * string) :
  key_lt a b -> key_lt b c -> key_lt a c.
Proof.
  unfold key_lt. destruct String_as_OT.lt_strorder as [_ Htr]. apply Htr.
Qed.

Lemma insert_kv_perm (kv : string * string) (l : list (string * string)) :
  Permutation (insert_kv kv l) (kv :: l).
Proof.
  induction l as [| kv' l IH]; simpl; [reflexivity |].
  destruct (String_as_OT.compare (fst kv) (fst kv')); try reflexivity.
  rewrite IH. apply perm_swap.
Qed.

Lemma sort_kv_perm (l : list (string * string)) : Permutation (sort_kv l) l.
Proof.
  induction l as [| kv l IH]; simpl; [reflexivity |].
  rewrite insert_kv_perm. now apply perm_skip.
Qed.

Lemma insert_kv_sorted (kv : string * string) (l : list (string * string)) :
  StronglySorted key_lt l -> ~ In (fst kv) (map fst l) ->
  StronglySorted key_lt (insert_kv kv l).
Proof.
  induction l as [| kv' l IH]; intros Hs Hin; simpl.
  - repeat constructor.
  - inversion Hs as [| ? ? Hs' Hall]; subst.
    destruct (String_as_OT.compare_spec (fst kv) (fst kv')) as [Heq | Hlt | Hgt].
    + exfalso. apply Hin. simpl. now left.
    + constructor; [now constructor |].
      constructor; [exact Hlt |].
      rewrite Forall_forall in *. intros x Hx.
      eapply key_lt_trans; [exact Hlt | now apply Hall].
    + constructor.
      * apply IH; [exact Hs' |]. intros H. apply Hin. simpl. now right.
      * rewrite Forall_forall in *. intros x Hx.
        apply (Permutation_in _ (insert_kv_perm kv l)) in Hx.
        destruct Hx as [<- | Hx]; [exact Hgt | now apply Hall].
Qed.

Lemma sort_kv_sorted (l : list (string * string)) :
  NoDup (map fst l) -> StronglySorted key_lt (sort_kv l).
Proof.
  induction l as [| kv l IH]; intros Hnd; simpl; [constructor |].
  inversion Hnd as [| ? ? Hnin Hnd']; subst.
  apply insert_kv_sorted; [now apply IH |].
  intros Hin. apply Hnin.
  apply (Permutation_in _ (Permutation_map fst (sort_kv_perm l))). exact Hin.
Qed.

Lemma sorted_perm_eq (l1 l2 : list (string * string)) :
  StronglySorted key_lt l1 -> StronglySorted key_lt l2 ->
  Permutation l1 l2 -> l1 = l2.
Proof.
  revert l2; induction l1 as [| a l1 IH]; intros l2 H1 H2 Hp.
  - symmetry. now apply Permutation_nil.
  - destruct l2 as [| b l2].
    + apply Permutation_sym, Permutation_nil in Hp. discriminate.
    + inversion H1 as [| ? ? H1' Ha]; inversion H2 as [| ? ? H2' Hb]; subst.
      assert (a = b) as <-.
      { destruct (Permutation_in a Hp (or_introl eq_refl)) as [-> | Ha2];
          [reflexivity |].
        assert (Hb1 : In b (a :: l1)).
        { apply (Permutation_in b (Permutation_sym Hp)). now left. }
        destruct Hb1 as [-> | Hb1]; [reflexivity |].
        rewrite Forall_forall in Ha, Hb.
        exfalso. apply (key_lt_irrefl a).
        eapply key_lt_trans; [apply Ha, Hb1 | apply Hb, Ha2]. }
      f_equal. apply IH; auto. eapply Permutation_cons_inv; exact Hp.
Qed.

Lemma map_fst_coerce (d : dict) : map fst (map coerce d) = map fst d.
Proof. rewrite map_map. reflexivity. Qed.

Example to_json_layout :
  to_json [("vnet", VBool true); ("basejail", VBool false); ("ip6_addr", VNone)]
  = "{" ++ nl
    ++ "    " ++ quoted "basejail" ++ ": " ++ quoted "no" ++ "," ++ nl
    ++ "    " ++ quoted "ip6_addr" ++ ": " ++ quoted "none" ++ "," ++ nl
    ++ "    " ++ quoted "vnet" ++ ": " ++ quoted "yes" ++ nl ++ "}".
Proof. vm_compute. reflexivity. Qed.

(** C9: [ConfigJSON.write] leaves exactly [to_json data] in the file,
    whatever it held before; [to_json] prints the values coerced by
    [to_string(.., true="yes", false="no", none="none")] under keys in
    strictly increasing order, so it does not depend on the insertion
    order of the dict; and two consecutive [save()] calls of a non-legacy
    configuration leave the same bytes. *)
Theorem write_deterministic_idempotent :
  (forall f d, write f d = FileText (to_json d)) /\
  (forall d, NoDup (map fst d) ->
     exists sorted, StronglySorted key_lt sorted /\
       Permutation sorted (map coerce d) /\ to_json d = render sorted) /\
  (forall d1 d2, NoDup (map fst d1) -> Permutation d1 d2 ->
     to_json d1 = to_json d2) /\
  (forall R legacy_save st f v,
     getitem R st "legacy" = Ok v -> truthy v = false ->
     save R legacy_save st f = Ok (FileText (to_json (data st))) /\
     save R legacy_save st (FileText (to_json (data st)))
       = Ok (FileText (to_json (data st)))).
Proof.
  split; [exact write_text |].
  split; [| split].
  - intros d Hnd. exists (sort_kv (map coerce d)). split; [| split].
    + apply sort_kv_sorted. now rewrite map_fst_coerce.
    + apply sort_kv_perm.
    + reflexivity.
  - intros d1 d2 Hnd Hp. unfold to_json, dumps. f_equal.
    apply sorted_perm_eq.
    + apply sort_kv_sorted. now rewrite map_fst_coerce.
    + apply sort_kv_sorted. rewrite map_fst_coerce.
      eapply Permutation_NoDup; [apply Permutation_map; exact Hp | exact Hnd].
    + rewrite !sort_kv_perm. now apply Permutation_map.
  - intros R legacy_save st f v Hl Hf. unfold save, save_json.
    rewrite Hl. simpl. rewrite Hf. simpl. rewrite !write_text. now split.
Qed.

Lemma write_deterministic_idempotent_witness :
  to_json [("vnet", VBool true); ("basejail", VBool false)]
  = to_json [("basejail", VBool false); ("vnet", VBool true)] /\
  save Concrete.resolver (fun _ f => f) Concrete.plain_jail FileAbsent
  = Ok (FileText (to_json (data Concrete.plain_jail))).
Proof.
  split.
  - apply (proj1 (proj2 (proj2 write_deterministic_idempotent))).
    + simpl. repeat constructor; simpl; intuition discriminate.
    + apply perm_swap.
  - apply (proj2 (proj2 (proj2 write_deterministic_idempotent))
             Concrete.resolver (fun _ f => f) Concrete.plain_jail FileAbsent
             (VBool false)); vm_compute; reflexivity.
Defined.

End ConfigJSONFacts.

(* ------------------------------------------------------------------ *)
(** ** [JailConfigFstab] *)

Module FstabFacts.
Import Fstab.

Lemma basejail_loop_ok (R : dict -> pyval) (fs : fstab) (cr : pyval)
  (dirs : list string) :
  cfg_get R fs "cloned_release" = Ok cr ->
  basejail_loop R fs dirs = Ok (map (generated fs cr) dirs).
Proof.
  intros Hcr. induction dirs as [|d ds IH]; simpl; [reflexivity|].
  rewrite Hcr. simpl. rewrite IH. reflexivity.
Qed.

Lemma no_auto_log (fs : fstab) (e : log_entry) : no_auto fs -> no_auto (log fs e).
Proof. unfold no_auto, log. simpl. auto. Qed.

Lemma no_auto_clear (fs : fstab) : no_auto (clear fs).
Proof. unfold no_auto, clear. simpl. intros l []. Qed.

Lemma no_auto_add_line (fs : fstab) (l : line) :
  no_auto fs -> comment l <> Some AUTO_COMMENT_IDENTIFIER ->
  no_auto (add_line fs l).
Proof.
  unfold no_auto, add_line. simpl. intros Hfs Hl l'.
  destruct (existsb (line_eqb l) (entries fs)); [apply Hfs|].
  intros Hin. apply in_app_or in Hin as [Hin | [<- | []]]; auto.
Qed.

Lemma parse_line_no_auto (R : dict -> pyval) (fs fs' : fstab) (raw : string) :
  no_auto fs -> parse_line R true fs raw = Ok fs' -> no_auto fs'.
Proof.
  intros Hfs. unfold parse_line.
  assert (Hrest : forall l cmt, cmt <> Some AUTO_COMMENT_IDENTIFIER ->
    (let l := PyStr.strip l in
     if String.eqb l "" then Ok fs
     else match PyStr.split_ws l with
          | [f0; f1; f2; f3; f4; f5] =>
              dup <-? fstab_contains R fs (mkLine f0 f1 f2 f3 f4 f5 cmt) ;;
              Ok (add_line (if dup then log fs (LogDuplicate f1) else fs)
                           (mkLine f0 f1 f2 f3 f4 f5 cmt))
          | _ => Ok (log fs (LogInvalidLine (fstab_file_path fs)))
          end) = Ok fs' -> no_auto fs').
  { intros l cmt Hcmt. cbv zeta.
    destruct (String.eqb (PyStr.strip l) "").
    - intros H. injection H as <-. exact Hfs.
    - destruct (PyStr.split_ws (PyStr.strip l))
        as [|f0 [|f1 [|f2 [|f3 [|f4 [|f5 [|f6 r]]]]]]];
        try (intros H; injection H as <-; apply no_auto_log; exact Hfs).
      destruct (fstab_contains R fs _) as [dup|e]; simpl;
        [|discriminate].
      intros H. injection H as <-. apply no_auto_add_line; [|exact Hcmt].
      destruct dup; [apply no_auto_log|]; exact Hfs. }
  destruct (PyStr.split_once "#" raw) as [[l c]|]; cbv zeta.
  - destruct (true && String.eqb (PyStr.strip_chars "# " c)
                                 AUTO_COMMENT_IDENTIFIER) eqn:Ea.
    + intros H. injection H as <-. exact Hfs.
    + apply (Hrest l (Some (PyStr.strip_chars "# " c))).
      intros Heq. injection Heq as Heq. rewrite Heq in Ea.
      vm_compute in Ea. discriminate.
  - apply (Hrest raw None). discriminate.
Qed.

Lemma parse_loop_no_auto (R : dict -> pyval) (raw_lines : list string) :
  forall fs r fs', no_auto fs -> parse_loop R true fs raw_lines = (r, fs') ->
  no_auto fs' /\ (forall x, r = Ok x -> x = fs').
Proof.
  induction raw_lines as [|raw rest IH]; simpl; intros fs r fs' Hfs H.
  - injection H as <- <-. split; [exact Hfs|]. intros x Hx. now injection Hx.
  - destruct (parse_line R true fs raw) as [fs1|e] eqn:E.
    + apply (IH fs1); [|exact H]. exact (parse_line_no_auto R fs fs1 raw Hfs E).
    + injection H as <- <-. split; [exact Hfs | discriminate].
Qed.

(** C1: the fstab is a set of lines whose hash is the destination but
    whose equality compares all seven fields, so two lines with one
    destination and different sources are both kept: [add("A", "/x")]
    then [add("B", "/x")] on an empty fstab stores two lines for ["/x"],
    and parsing two six-field lines with destination ["/x"] stores both
    and logs the duplicate. *)
Theorem fstab_duplicate_destination_kept :
  entries (add_default (add_default Concrete.empty_fstab "A" "/x") "B" "/x")
  = [mkLine "A" "/x" "nullfs" "ro" "0" "0" None;
     mkLine "B" "/x" "nullfs" "ro" "0" "0" None] /\
  (exists fs,
     parse_lines Concrete.resolver Concrete.empty_fstab
       ("a /x nullfs ro 0 0" ++ String (ascii_of_nat 10) "b /x nullfs ro 0 0")
       false = (Ok fs, fs) /\
     entries fs = [mkLine "a" "/x" "nullfs" "ro" "0" "0" None;
                   mkLine "b" "/x" "nullfs" "ro" "0" "0" None] /\
     logs fs = [LogDuplicate "/x"]).
Proof.
  split; [vm_compute; reflexivity|].
  eexists. split; [vm_compute; reflexivity|]. split; vm_compute; reflexivity.
Qed.

(** C7: with [basejail] truthy and [basejail_type] equal to ["nullfs"],
    iterating the fstab yields its lines followed by one generated line
    per base directory, read-only nullfs with comment ["iocage-auto"],
    from [<releases>/<cloned_release>/root/<dir>] to
    [<jail path>/root/<dir>]; with [basejail] falsy or another
    [basejail_type] it yields its lines only; and [parse_lines] with
    [ignore_auto_created] leaves no line whose comment is ["iocage-auto"],
    whether it returns or raises. *)
Theorem basejail_lines_generated (R : dict -> pyval) :
  (forall fs b cr,
     cfg_get R fs "basejail" = Ok b -> truthy b = true ->
     cfg_get R fs "basejail_type" = Ok (VStr "nullfs") ->
     cfg_get R fs "cloned_release" = Ok cr ->
     iter R fs = Ok (entries fs ++ map (generated fs cr) (basedirs (view fs)))%list) /\
  (forall fs b t,
     cfg_get R fs "basejail" = Ok b -> cfg_get R fs "basejail_type" = Ok t ->
     truthy b = false \/ t <> VStr "nullfs" ->
     iter R fs = Ok (entries fs)) /\
  (forall fs input r fs',
     parse_lines R fs input true = (r, fs') ->
     no_auto fs' /\ (forall x, r = Ok x -> no_auto x)).
Proof.
  split; [|split].
  - intros fs b cr Hb Ht Hty Hcr. unfold iter, basejail_lines.
    rewrite Hb, Hty. simpl. rewrite Ht. simpl.
    rewrite (basejail_loop_ok R fs cr _ Hcr). reflexivity.
  - intros fs b t Hb Hty Hn. unfold iter, basejail_lines.
    rewrite Hb, Hty. simpl.
    replace (negb (truthy b && py_eqb t (VStr "nullfs"))) with true.
    + simpl. now rewrite app_nil_r.
    + destruct Hn as [Hn | Hn]; [now rewrite Hn|].
      unfold py_eqb. destruct (pyval_eq_dec t (VStr "nullfs")); [contradiction|].
      now rewrite andb_false_r.
  - intros fs input r fs' H. unfold parse_lines in H.
    destruct (parse_loop_no_auto R _ (clear fs) r fs' (no_auto_clear fs) H)
      as [Hn Hr].
    split; [exact Hn|]. intros x Hx. rewrite (Hr x Hx). exact Hn.
Qed.

Lemma basejail_lines_generated_witness :
  Fstab.iter Concrete.resolver Concrete.basejail_fstab
  = Ok (entries Concrete.basejail_fstab
        ++ map (generated Concrete.basejail_fstab (VStr "13.0"))
               (basedirs (view Concrete.basejail_fstab)))%list /\
  Fstab.iter Concrete.resolver Concrete.empty_fstab
  = Ok (entries Concrete.empty_fstab) /\
  no_auto (snd (parse_lines Concrete.resolver Concrete.empty_fstab
                 "a /x nullfs ro 0 0 # iocage-auto" true)).
Proof.
  split; [|split].
  - apply (proj1 (basejail_lines_generated Concrete.resolver)
             Concrete.basejail_fstab (VBool true) (VStr "13.0"));
      vm_compute; reflexivity.
  - apply (proj1 (proj2 (basejail_lines_generated Concrete.resolver))
             Concrete.empty_fstab (VBool false) VNone);
      [vm_compute; reflexivity | vm_compute; reflexivity | left; reflexivity].
  - refine (proj1 (proj2 (proj2 (basejail_lines_generated Concrete.resolver))
             Concrete.empty_fstab "a /x nullfs ro 0 0 # iocage-auto"
             (fst (parse_lines Concrete.resolver Concrete.empty_fstab
                     "a /x nullfs ro 0 0 # iocage-auto" true)) _ _)).
    vm_compute. reflexivity.
Defined.

End FstabFacts.

(* ------------------------------------------------------------------ *)
(** ** [JailConfig] *)

Module JailConfigFacts.

Section Collaborators.
Variable Addr : pyval -> string -> bool -> res pyval.
Variable Ifc : pyval -> res pyval.
Variable Res : dict -> pyval.
Variable Ser : pyval -> string.

Lemma dget_dset_same (d : dict) (k : string) (v : pyval) :
  dget (dset d k v) k = Some v.
Proof.
  induction d as [|[k' v'] r IH]; simpl.
  - now rewrite String.eqb_refl.
  - destruct (String.eqb k k') eqn:E; simpl; rewrite E; [reflexivity | exact IH].
Qed.

(** The words [parse_user_input] converts contain no ["accept_rtadv"]. *)
Lemma contains_rtadv_parse (v : pyval) :
  PyStr.contains "accept_rtadv" (py_str (parse_user_input v))
  = PyStr.contains "accept_rtadv" (py_str v).
Proof.
  destruct v as [s| | | | |]; try reflexivity. unfold parse_user_input.
  destruct (existsb (String.eqb s) ["yes"; "on"; "true"]) eqn:E1.
  { apply existsb_exists in E1 as [w [Hin Hw]]. apply String.eqb_eq in Hw.
    subst. destruct Hin as [<-|[<-|[<-|[]]]]; reflexivity. }
  destruct (existsb (String.eqb s) ["no"; "off"; "false"]) eqn:E2.
  { apply existsb_exists in E2 as [w [Hin Hw]]. apply String.eqb_eq in Hw.
    subst. destruct Hin as [<-|[<-|[<-|[]]]]; reflexivity. }
  destruct (String.eqb s "none") eqn:E3; [|reflexivity].
  apply String.eqb_eq in E3. subst. reflexivity.
Qed.

(** [self["ip6_addr"] = value] runs [_set_ip6_addr] on the parsed value. *)
Lemma setitem_ip6 (n : nat) (v : pyval) (kw : option pyval) :
  setitem Addr Ifc Res Ser (S n) "ip6_addr" v kw
  = (skip <- skip_on_error_of kw ;;
     h <- lift (Addr (parse_user_input v) "ip6_addr" skip) ;;
     special_set "ip6_addr" h ;;;
     update_special_property "ip6_addr" ;;;
     rc_conf_set "rtsold_enable"
       (VBool (PyStr.contains "accept_rtadv" (py_str (parse_user_input v))))).
Proof. reflexivity. Qed.

End Collaborators.

(** C2: [get_string] does not render the value: [stringify] returns the
    function [libiocage.helpers.to_string] itself, or fails with an
    [AttributeError] that makes the lookup end in a [KeyError]. For a
    configuration built from [{"foo": "yes"}] the result is not ["yes"]. *)
Theorem get_string_returns_function :
  let items := [("foo", VStr "yes")] in
  getitem Concrete.resolver (Concrete.new_config items [] true) "foo"
    = Ok (VBool true) /\
  get_string Concrete.resolver (Concrete.new_config items [] true) "foo"
    = Ok (VFun "to_string") /\
  get_string Concrete.resolver (Concrete.new_config items [] false) "foo"
    = Err KeyError.
Proof. split; [|split]; vm_compute; reflexivity. Qed.

(** C3: [read] probes the JSON file, then the legacy UCL file, then the
    ZFS properties; the first encoding that exists is read (the later
    probes and readers are not run), [legacy] is set to [False] for JSON
    and to [True] otherwise, and the encoding is returned; an exception of
    the reader propagates; with none present the result is [None] and the
    configuration is unchanged. *)
Theorem read_probe_order
  (Addr : pyval -> string -> bool -> res pyval) (Ifc : pyval -> res pyval)
  (Res : dict -> pyval) (Ser : pyval -> string)
  (je le ze : jail_config -> bool) (rj rl rz : M unit) (st : jail_config) :
  (je st = true ->
   jc_read Addr Ifc Res Ser je le ze rj rl rz st
   = match rj st with
     | (Ok _, s1) =>
         (Ok (Some "json"), with_data s1 (dset (data s1) "legacy" (VBool false)))
     | (Err e, s1) => (Err e, s1)
     end) /\
  (je st = false -> le st = true ->
   jc_read Addr Ifc Res Ser je le ze rj rl rz st
   = match rl st with
     | (Ok _, s1) =>
         (Ok (Some "ucl"), with_data s1 (dset (data s1) "legacy" (VBool true)))
     | (Err e, s1) => (Err e, s1)
     end) /\
  (je st = false -> le st = false -> ze st = true ->
   jc_read Addr Ifc Res Ser je le ze rj rl rz st
   = match rz st with
     | (Ok _, s1) =>
         (Ok (Some "zfs"), with_data s1 (dset (data s1) "legacy" (VBool true)))
     | (Err e, s1) => (Err e, s1)
     end) /\
  (je st = false -> le st = false -> ze st = false ->
   jc_read Addr Ifc Res Ser je le ze rj rl rz st = (Ok None, st)).
Proof.
  unfold jc_read, bind, get_state.
  split; [|split; [|split]]; intros; repeat match goal with
    | H : _ st = _ |- _ => rewrite H; clear H end.
  - destruct (rj st) as [[[]|e] s1]; reflexivity.
  - destruct (rl st) as [[[]|e] s1]; reflexivity.
  - destruct (rz st) as [[[]|e] s1]; reflexivity.
  - reflexivity.
Qed.

Lemma read_probe_order_witness :
  Concrete.read_with true true true Concrete.plain_jail
  = (Ok (Some "json"), with_data Concrete.plain_jail
        (dset (data Concrete.plain_jail) "legacy" (VBool false))) /\
  Concrete.read_with false true true Concrete.plain_jail
  = (Ok (Some "ucl"), with_data Concrete.plain_jail
        (dset (data Concrete.plain_jail) "legacy" (VBool true))) /\
  Concrete.read_with false false true Concrete.plain_jail
  = (Ok (Some "zfs"), with_data Concrete.plain_jail
        (dset (data Concrete.plain_jail) "legacy" (VBool true))) /\
  Concrete.read_with false false false Concrete.plain_jail
  = (Ok None, Concrete.plain_jail).
Proof.
  unfold Concrete.read_with.
  split; [|split; [|split]].
  - exact (proj1 (read_probe_order Concrete.addresses Concrete.interfaces
      Concrete.resolver Concrete.resolver_text (fun _ => true) (fun _ => true)
      (fun _ => true) (ret tt) (ret tt) (ret tt) Concrete.plain_jail) eq_refl).
  - exact (proj1 (proj2 (read_probe_order Concrete.addresses
      Concrete.interfaces Concrete.resolver Concrete.resolver_text
      (fun _ => false) (fun _ => true) (fun _ => true) (ret tt) (ret tt)
      (ret tt) Concrete.plain_jail)) eq_refl eq_refl).
  - exact (proj1 (proj2 (proj2 (read_probe_order Concrete.addresses
      Concrete.interfaces Concrete.resolver Concrete.resolver_text
      (fun _ => false) (fun _ => false) (fun _ => true) (ret tt) (ret tt)
      (ret tt) Concrete.plain_jail))) eq_refl eq_refl eq_refl).
  - exact (proj2 (proj2 (proj2 (read_probe_order Concrete.addresses
      Concrete.interfaces Concrete.resolver Concrete.resolver_text
      (fun _ => false) (fun _ => false) (fun _ => false) (ret tt) (ret tt)
      (ret tt) Concrete.plain_jail))) eq_refl eq_refl eq_refl).
Defined.

(** C4: a bulk update does not keep a stored [id] that [_set_name] would
    rewrite: aliases are pinned to the current [id], but [_set_name]
    re-validates it because its guard [self.id == name] always raises.
    A configuration built from [{}] that receives [{"id": "{<uuid>}"}]
    stores the braced text; a later bulk update with [{"name": "web02"}]
    changes the stored [id] to the plain UUID. *)
Theorem bulk_update_rewrites_id :
  let s1 := snd (Concrete.bulk [("id", VStr Concrete.braced_uuid)]
                               Concrete.blank) in
  let s2 := Concrete.bulk [("name", VStr "web02")] s1 in
  getitem Concrete.resolver Concrete.blank "id" = Ok VNone /\
  getitem Concrete.resolver s1 "id" = Ok (VStr Concrete.braced_uuid) /\
  fst s2 = Ok tt /\
  getitem Concrete.resolver (snd s2) "id" = Ok (VStr Concrete.the_uuid).
Proof. split; [|split; [|split]]; vm_compute; reflexivity. Qed.

(** C5: [_set_name] accepts ["web01"], rejects ["bad name"] with
    [InvalidJailName], and accepts a braced UUID (which the character
    check rejects) as the plain UUID; but assigning the stored identity
    again is not a no-op, since the guard [self.id == name] always raises:
    with ["bad name"] stored by a bulk update, [self["name"] = "bad name"]
    fails with [InvalidJailName]. *)
Theorem set_name_validation :
  let bad := snd (Concrete.bulk [("id", VStr "bad name")] Concrete.blank) in
  fst (Concrete.assign "name" (VStr "web01") None Concrete.blank) = Ok tt /\
  getitem Concrete.resolver
    (snd (Concrete.assign "name" (VStr "web01") None Concrete.blank)) "id"
    = Ok (VStr "web01") /\
  fst (Concrete.assign "name" (VStr "bad name") None Concrete.blank)
    = Err InvalidJailName /\
  validate_name Concrete.braced_uuid = false /\
  getitem Concrete.resolver
    (snd (Concrete.assign "name" (VStr Concrete.braced_uuid) None
                          Concrete.blank)) "id"
    = Ok (VStr Concrete.the_uuid) /\
  getitem Concrete.resolver bad "id" = Ok (VStr "bad name") /\
  fst (Concrete.assign "name" (VStr "bad name") None bad) = Err InvalidJailName.
Proof. repeat split; vm_compute; reflexivity. Qed.

(** C6: when [self["ip6_addr"] = value] completes, the jail's [rc_conf]
    maps [rtsold_enable] to whether [str(value)] contains
    ["accept_rtadv"]. *)
Theorem ip6_sets_rtsold_flag
  (Addr : pyval -> string -> bool -> res pyval) (Ifc : pyval -> res pyval)
  (Res : dict -> pyval) (Ser : pyval -> string)
  (v : pyval) (kw : option pyval) (st st' : jail_config) (u : unit) :
  set_item Addr Ifc Res Ser "ip6_addr" v kw st = (Ok u, st') ->
  exists j, jail st' = Some j /\
    dget (rc_conf j) "rtsold_enable"
    = Some (VBool (PyStr.contains "accept_rtadv" (py_str v))).
Proof.
  unfold set_item, getitem_depth. rewrite setitem_ip6. intros Hset.
  rewrite <- (contains_rtadv_parse v). revert Hset.
  unfold bind, lift, skip_on_error_of, raise, ret.
  destruct kw as [k|]; [|discriminate].
  destruct (Addr (parse_user_input v) "ip6_addr" (py_eqb k (VBool true)))
    as [h|e]; [|discriminate].
  unfold special_set, update_special_property, rc_conf_set, data_set,
    get_state, put_state, bind.
  cbn [special_properties with_special]. rewrite dget_dset_same.
  cbn [jail with_special with_data].
  destruct (jail st) as [j|]; [|discriminate].
  intros H. injection H as <- <-. eexists. split; [reflexivity|].
  apply dget_dset_same.
Qed.

Lemma ip6_sets_rtsold_flag_witness :
  let v := VStr "fe80::1/64 accept_rtadv" in
  let r := Concrete.assign "ip6_addr" v (Some (VBool false)) Concrete.plain_jail in
  exists j, jail (snd r) = Some j /\
    dget (rc_conf j) "rtsold_enable"
    = Some (VBool (PyStr.contains "accept_rtadv" (py_str v))).
Proof.
  apply (ip6_sets_rtsold_flag Concrete.addresses Concrete.interfaces
           Concrete.resolver Concrete.resolver_text
           (VStr "fe80::1/64 accept_rtadv") (Some (VBool false))
           Concrete.plain_jail _ tt).
  vm_compute. reflexivity.
Defined.

(** C10 (counterexample): [jail_zfs_dataset] reads as the empty list,
    whose [str()] is ["[]"]; assigning the string ["[]"] stores it, the
    key then reads as a one-element list, and [set] reports a change. *)
Lemma set_same_rendering_reports_change :
  getitem_user Concrete.resolver Concrete.plain_jail "jail_zfs_dataset" false
    = Ok (VList []) /\
  py_str (VList []) = py_str (VStr "[]") /\
  getitem_user Concrete.resolver
    (snd (Concrete.set "jail_zfs_dataset" (VStr "[]") None Concrete.plain_jail))
    "jail_zfs_dataset" false = Ok (VList ["[]"]) /\
  fst (Concrete.set "jail_zfs_dataset" (VStr "[]") None Concrete.plain_jail)
    = Ok true.
Proof. repeat split; vm_compute; reflexivity. Qed.

(** C10 (amended): [set] returns whether the hashes of the [str()] of the
    user-visible value read before and after the assignment differ
    ([None] for an unreadable key). So it returns [False] when those two
    renderings are equal, whatever the types, and when the key is
    unreadable before and after, even if the plain store changed. The
    rendering of the assigned value itself does not decide it. *)
Theorem set_compares_renderings
  (Addr : pyval -> string -> bool -> res pyval) (Ifc : pyval -> res pyval)
  (Res : dict -> pyval) (Ser : pyval -> string) (H : string -> Z)
  (key : string) (value : pyval) (kw : option pyval)
  (st st' : jail_config) (b : bool) :
  jc_set Addr Ifc Res Ser H key value kw st = (Ok b, st') ->
  b = negb (opt_Z_eqb (hash_of H (getitem_user Res st key false))
                      (hash_of H (getitem_user Res st' key false))) /\
  (forall x y, getitem_user Res st key false = Ok x ->
     getitem_user Res st' key false = Ok y -> py_str x = py_str y ->
     b = false) /\
  (forall e1 e2, getitem_user Res st key false = Err e1 ->
     getitem_user Res st' key false = Err e2 -> b = false).
Proof.
  unfold jc_set, bind, get_state, ret.
  destruct (set_item Addr Ifc Res Ser key value kw st) as [[[]|e] s1];
    [|discriminate].
  intros Hs. injection Hs as <- <-.
  split; [reflexivity|]. split.
  - intros x y Hx Hy Hxy. rewrite Hx, Hy. unfold hash_of, opt_Z_eqb.
    now rewrite Hxy, Z.eqb_refl.
  - intros e1 e2 Hx Hy. now rewrite Hx, Hy.
Qed.

Lemma set_compares_renderings_witness :
  let r := Concrete.set "name" (VStr "web02") None Concrete.plain_jail in
  getitem Concrete.resolver (snd r) "id" = Ok (VStr "web02") /\
  false = negb (opt_Z_eqb
    (hash_of Concrete.hash (getitem_user Concrete.resolver Concrete.plain_jail "name" false))
    (hash_of Concrete.hash (getitem_user Concrete.resolver (snd r) "name" false))) /\
  (forall x y,
     getitem_user Concrete.resolver Concrete.plain_jail "name" false = Ok x ->
     getitem_user Concrete.resolver (snd r) "name" false = Ok y ->
     py_str x = py_str y -> false = false) /\
  (forall e1 e2,
     getitem_user Concrete.resolver Concrete.plain_jail "name" false = Err e1 ->
     getitem_user Concrete.resolver (snd r) "name" false = Err e2 ->
     false = false).
Proof.
  split; [vm_compute; reflexivity|].
  apply (set_compares_renderings Concrete.addresses Concrete.interfaces
           Concrete.resolver Concrete.resolver_text Concrete.hash
           "name" (VStr "web02") None Concrete.plain_jail _ false).
  vm_compute. reflexivity.
Defined.

End JailConfigFacts.

(* ------------------------------------------------------------------ *)
(** ** Facts about the string helpers *)

Module PyStrFacts.
Import PyStr TextForms.



Lemma to_list_of_list (l : list ascii) : to_list (of_list l) = l.
Proof. induction l as [|c r IH]; simpl; [reflexivity | now rewrite IH]. Qed.








End PyStrFacts.

(* ------------------------------------------------------------------ *)
(** ** More of [JailConfig]: the setters and getters *)

Module JailConfigMoreFacts.

Lemma dget_dset_eq (d : dict) (k : string) (v : pyval) :
  dget (dset d k v) k = Some v.
Proof.
  induction d as [|[k' v'] r IH]; simpl.
  - now rewrite String.eqb_refl.
  - destruct (String.eqb k k') eqn:E; simpl; rewrite E; [reflexivity | exact IH].
Qed.

Lemma dget_dset_neq (d : dict) (k k' : string) (v : pyval) :
  String.eqb k' k = false -> dget (dset d k v) k' = dget d k'.
Proof.
  intros Hne. induction d as [|[k0 v0] r IH]; simpl.
  - now rewrite Hne.
  - destruct (String.eqb k k0) eqn:E; simpl.
    + apply String.eqb_eq in E. subst k0. now rewrite Hne.
    + destruct (String.eqb k' k0); [reflexivity | exact IH].
Qed.

Lemma plain_key_neq (k x : string) :
  plain_key k = true ->
  existsb (String.eqb x) ("tags" :: setter_keys ++ getter_keys ++ attribute_names)
  = true ->
  String.eqb k x = false.
Proof.
  unfold plain_key. intros Hk Hx.
  apply andb_true_iff in Hk as [_ Hk]. apply negb_true_iff in Hk.
  destruct (String.eqb k x) eqn:E; [|reflexivity].
  apply String.eqb_eq in E. subst x. congruence.
Qed.

Lemma plain_key_not_attribute (k : string) :
  plain_key k = true -> existsb (String.eqb k) attribute_names = false.
Proof.
  intros Hk. destruct (existsb (String.eqb k) attribute_names) eqn:E; [|reflexivity].
  apply existsb_exists in E as [x [Hin Hx]]. apply String.eqb_eq in Hx. subst x.
  assert (Hin' : existsb (String.eqb k)
                   ("tags" :: setter_keys ++ getter_keys ++ attribute_names) = true).
  { apply existsb_exists. exists k. split; [|apply String.eqb_refl].
    right. apply in_or_app. right. apply in_or_app. right. exact Hin. }
  pose proof (plain_key_neq k k Hk Hin') as H. rewrite String.eqb_refl in H.
  discriminate.
Qed.

Ltac plain_neq Hk :=
  repeat match goal with
  | |- context [String.eqb ?k ?x] =>
      is_var k; rewrite (plain_key_neq k x Hk) by reflexivity
  end.

(** [self[key]] for a plain key reads [self.data], then the defaults. *)
Lemma getitem_fuel_plain (f : nat) (R : dict -> pyval) (st : jail_config)
  (k : string) :
  plain_key k = true ->
  getitem_fuel R (S f) st k false
  = match dget (data st) k with
    | Some v => Ok v
    | None => of_opt KeyError (dget (defaults st) k)
    end.
Proof.
  intros Hk. cbn [getitem_fuel]. unfold getitem_user_with, getattr.
  rewrite (plain_key_not_attribute k Hk). unfold getter. plain_neq Hk.
  cbn. unfold data_get. destruct (dget (data st) k); reflexivity.
Qed.

Lemma setitem_plain (f : nat) (A : pyval -> string -> bool -> res pyval)
  (I : pyval -> res pyval) (R : dict -> pyval) (Ser : pyval -> string)
  (k : string) (v : pyval) (kw : option pyval) (st : jail_config) :
  plain_key k = true ->
  setitem A I R Ser (S f) k v kw st
  = (Ok tt, with_data st (dset (data st) k (parse_user_input v))).
Proof.
  intros Hk. cbn [setitem]. plain_neq Hk. reflexivity.
Qed.


Lemma py_eqb_true (x y : pyval) : py_eqb x y = true <-> x = y.
Proof. unfold py_eqb. destruct (pyval_eq_dec x y); split; congruence. Qed.

Lemma py_eqb_false (x y : pyval) : x <> y -> py_eqb x y = false.
Proof. unfold py_eqb. destruct (pyval_eq_dec x y); congruence. Qed.

(** [parse_user_input] never returns the string ["none"]. *)
Lemma parse_not_none_str (v : pyval) (s : string) :
  parse_user_input v = VStr s -> String.eqb s "none" = false.
Proof.
  intros H. destruct v as [s0| | | | |]; try discriminate H.
  unfold parse_user_input in H.
  destruct (existsb (String.eqb s0) ["yes"; "on"; "true"]); [discriminate H|].
  destruct (existsb (String.eqb s0) ["no"; "off"; "false"]); [discriminate H|].
  destruct (String.eqb s0 "none") eqn:E; [discriminate H|].
  injection H as <-. exact E.
Qed.


(** Plain-key round trip of [__setitem__] and [__getitem__]: for a key
    that names no attribute, no [_get_] or [_set_] method and no private
    name, [self[k] = v] only stores the parsed value in [self.data],
    [self[k]] then returns that value, and while the key is not stored
    [self[k]] is the default (a [KeyError] when there is none). *)
Theorem plain_key_round_trip (A : pyval -> string -> bool -> res pyval)
  (I : pyval -> res pyval) (R : dict -> pyval) (Ser : pyval -> string)
  (k : string) (v : pyval) (kw : option pyval) (st : jail_config) :
  plain_key k = true ->
  set_item A I R Ser k v kw st
    = (Ok tt, with_data st (dset (data st) k (parse_user_input v))) /\
  getitem R (with_data st (dset (data st) k (parse_user_input v))) k
    = Ok (parse_user_input v) /\
  (dget (data st) k = None ->
   getitem R st k = of_opt KeyError (dget (defaults st) k)).
Proof.
  intros Hk. unfold set_item, getitem, getitem_depth.
  rewrite setitem_plain by exact Hk.
  rewrite !getitem_fuel_plain by exact Hk. simpl data.
  rewrite dget_dset_eq. split; [reflexivity|split; [reflexivity|]].
  intros Hn. now rewrite Hn.
Qed.

Lemma plain_key_round_trip_witness :
  plain_key "release" = true /\
  set_item Concrete.addresses Concrete.interfaces Concrete.resolver
    Concrete.resolver_text "release" (VStr "13.0-RELEASE") None
    Concrete.plain_jail
  = (Ok tt, with_data Concrete.plain_jail
              (dset (data Concrete.plain_jail) "release"
                    (parse_user_input (VStr "13.0-RELEASE")))) /\
  getitem Concrete.resolver
    (with_data Concrete.plain_jail
       (dset (data Concrete.plain_jail) "release"
             (parse_user_input (VStr "13.0-RELEASE")))) "release"
  = Ok (parse_user_input (VStr "13.0-RELEASE")) /\
  (dget (data Concrete.plain_jail) "release" = None ->
   getitem Concrete.resolver Concrete.plain_jail "release"
   = of_opt KeyError (dget (defaults Concrete.plain_jail) "release")).
Proof.
  split; [reflexivity|].
  apply (plain_key_round_trip Concrete.addresses Concrete.interfaces
           Concrete.resolver Concrete.resolver_text "release"
           (VStr "13.0-RELEASE") None Concrete.plain_jail).
  reflexivity.
Defined.

(** [defaultrouter] and [defaultrouter6] round trip: after
    [self[k] = v], [self[k]] is the parsed value; [None] is stored as the
    string ["none"] and read back as [None]. *)
Theorem defaultrouter_round_trip (A : pyval -> string -> bool -> res pyval)
  (I : pyval -> res pyval) (R : dict -> pyval) (Ser : pyval -> string)
  (k : string) (v : pyval) (kw : option pyval) (st : jail_config) :
  k = "defaultrouter" \/ k = "defaultrouter6" ->
  exists st',
    set_item A I R Ser k v kw st = (Ok tt, st') /\
    getitem R st' k = Ok (parse_user_input v) /\
    dget (data st') k
      = Some (match parse_user_input v with
              | VNone => VStr "none"
              | _ => parse_user_input v
              end).
Proof.
  intros Hk. destruct Hk as [-> | ->];
    (unfold set_item, getitem_depth; cbn -[dset dget parse_user_input py_eqb];
    eexists; split; try reflexivity; split;
    [ unfold getitem; cbn -[dset dget parse_user_input py_eqb];
      unfold data_get; simpl data; rewrite dget_dset_eq;
      destruct (parse_user_input v) as [s|b| | | |] eqn:Ep; cbn -[py_eqb];
      try reflexivity;
      rewrite ?(py_eqb_false _ VNone) by discriminate; simpl orb;
      rewrite (py_eqb_false (VStr s) (VStr "none")); [reflexivity|];
      intros He; injection He as ->;
      pose proof (parse_not_none_str v "none" Ep); discriminate
    | simpl data; apply dget_dset_eq ]).
Qed.

Lemma defaultrouter_round_trip_witness :
  ("defaultrouter" = "defaultrouter" \/ "defaultrouter" = "defaultrouter6") /\
  exists st',
    set_item Concrete.addresses Concrete.interfaces Concrete.resolver
      Concrete.resolver_text "defaultrouter" (VStr "none") None
      Concrete.plain_jail = (Ok tt, st') /\
    getitem Concrete.resolver st' "defaultrouter"
      = Ok (parse_user_input (VStr "none")) /\
    dget (data st') "defaultrouter"
      = Some (match parse_user_input (VStr "none") with
              | VNone => VStr "none"
              | _ => parse_user_input (VStr "none")
              end).
Proof.
  split; [left; reflexivity|].
  apply (defaultrouter_round_trip Concrete.addresses Concrete.interfaces
           Concrete.resolver Concrete.resolver_text "defaultrouter"
           (VStr "none") None Concrete.plain_jail).
  left; reflexivity.
Defined.



(** Setting [type] to ["basejail"] or ["clonejail"] sets the [basejail]
    and [clonejail] flags and stores the plain type ["jail"]; reading
    [self["type"]] afterwards gives back the value that was set, derived
    from the flags. [_set_basejail] reads [self["legacy"]], which must not
    raise. *)
Theorem type_derived_from_flags (A : pyval -> string -> bool -> res pyval)
  (I : pyval -> res pyval) (R : dict -> pyval) (Ser : pyval -> string)
  (t : string) (v : pyval) (kw : option pyval) (st : jail_config)
  (legacy : pyval) :
  t = "basejail" \/ t = "clonejail" ->
  getitem R st "legacy" = Ok legacy ->
  parse_user_input v = VStr t ->
  exists st',
    set_item A I R Ser "type" v kw st = (Ok tt, st') /\
    getitem R st' "type" = Ok (VStr t) /\
    dget (data st') "type" = Some (VStr "jail").
Proof.
  intros Ht Hl Hp.
  unfold set_item, getitem_depth;
    cbn -[dset dget parse_user_input getitem to_string py_eqb].
  rewrite Hp.
  destruct Ht as [-> | ->]; cbn -[dset dget parse_user_input getitem to_string].
  all: unfold bind, get_item, get_state, lift;
    cbn -[getitem dset dget parse_user_input];
    rewrite Hl; destruct (truthy legacy);
    cbn -[getitem dset dget parse_user_input].
  all: eexists; split; [reflexivity|].
  all: unfold getitem; cbn -[dset dget parse_user_input];
    unfold data_get; simpl data;
    repeat (first [rewrite dget_dset_eq | rewrite dget_dset_neq by reflexivity]);
    split; reflexivity.
Qed.

Lemma type_derived_from_flags_witness :
  ("clonejail" = "basejail" \/ "clonejail" = "clonejail") /\
  getitem Concrete.resolver Concrete.plain_jail "legacy" = Ok (VBool false) /\
  parse_user_input (VStr "clonejail") = VStr "clonejail" /\
  exists st',
    set_item Concrete.addresses Concrete.interfaces Concrete.resolver
      Concrete.resolver_text "type" (VStr "clonejail") None Concrete.plain_jail
    = (Ok tt, st') /\
    getitem Concrete.resolver st' "type" = Ok (VStr "clonejail") /\
    dget (data st') "type" = Some (VStr "jail").
Proof.
  split; [right; reflexivity|]. split; [vm_compute; reflexivity|].
  split; [reflexivity|].
  apply (type_derived_from_flags Concrete.addresses Concrete.interfaces
           Concrete.resolver Concrete.resolver_text "clonejail"
           (VStr "clonejail") None Concrete.plain_jail (VBool false)).
  - right; reflexivity.
  - vm_compute; reflexivity.
  - reflexivity.
Defined.

Lemma ddel_absent (d : dict) (k : string) : dget d k = None -> ddel d k = None.
Proof.
  induction d as [|[k0 v0] r IH]; simpl; [reflexivity|].
  destruct (String.eqb k k0); [discriminate|]. intros H. now rewrite IH.
Qed.

Lemma ddel_none_absent (d : dict) (k : string) :
  ddel d k = None -> dget d k = None.
Proof.
  induction d as [|[k0 v0] r IH]; simpl; [reflexivity|].
  destruct (String.eqb k k0); [discriminate|].
  destruct (ddel r k); simpl; [discriminate|]. intros _. now apply IH.
Qed.

Lemma dget_not_key (d : dict) (k : string) :
  ~ In k (map fst d) -> dget d k = None.
Proof.
  induction d as [|[k0 v0] r IH]; simpl; [reflexivity|].
  intros Hn. destruct (String.eqb k k0) eqn:E.
  - apply String.eqb_eq in E. subst. tauto.
  - apply IH. tauto.
Qed.

(** In a dict without repeated keys, [del d[k]] leaves no entry for [k]. *)
Lemma ddel_removes (d d' : dict) (k : string) :
  NoDup (map fst d) -> ddel d k = Some d' -> dget d' k = None.
Proof.
  revert d'. induction d as [|[k0 v0] r IH]; intros d' Hnd; simpl; [discriminate|].
  inversion Hnd as [|? ? Hn Hnd']; subst.
  destruct (String.eqb k k0) eqn:E.
  - intros H. injection H as <-. apply String.eqb_eq in E. subst.
    now apply dget_not_key.
  - destruct (ddel r k) as [r'|] eqn:Er; simpl; [|discriminate].
    intros H. injection H as <-. simpl. rewrite E. now apply IH.
Qed.







(** Unsetting [jail_zfs] (assigning [None] or [""]) when it was never
    set raises a [KeyError] from [del self.data["jail_zfs"]] and changes
    nothing. *)
Theorem jail_zfs_unset_missing (A : pyval -> string -> bool -> res pyval)
  (I : pyval -> res pyval) (R : dict -> pyval) (Ser : pyval -> string)
  (v : pyval) (kw : option pyval) (st : jail_config) :
  dget (data st) "jail_zfs" = None ->
  parse_user_input v = VNone \/ parse_user_input v = VStr "" ->
  set_item A I R Ser "jail_zfs" v kw st = (Err KeyError, st).
Proof.
  intros Hd Hp.
  unfold set_item, getitem_depth; cbn -[dset dget ddel parse_user_input].
  destruct Hp as [Hp|Hp]; rewrite Hp; cbn -[ddel];
    unfold data_del, bind, get_state; rewrite (ddel_absent _ _ Hd); reflexivity.
Qed.

Lemma jail_zfs_unset_missing_witness :
  dget (data Concrete.plain_jail) "jail_zfs" = None /\
  (parse_user_input (VStr "") = VNone \/ parse_user_input (VStr "") = VStr "") /\
  set_item Concrete.addresses Concrete.interfaces Concrete.resolver
    Concrete.resolver_text "jail_zfs" (VStr "") None Concrete.plain_jail
  = (Err KeyError, Concrete.plain_jail).
Proof.
  split; [vm_compute; reflexivity|]. split; [right; reflexivity|].
  apply (jail_zfs_unset_missing Concrete.addresses Concrete.interfaces
           Concrete.resolver Concrete.resolver_text (VStr "") None
           Concrete.plain_jail).
  - vm_compute; reflexivity.
  - right; reflexivity.
Defined.

(** Unsetting [login_flags] (assigning [None]) never raises, also when
    it was not set, and afterwards [self["login_flags"]] is the default
    list [-f root] (the store has no repeated keys). *)
Theorem login_flags_unset_default (A : pyval -> string -> bool -> res pyval)
  (I : pyval -> res pyval) (R : dict -> pyval) (Ser : pyval -> string)
  (v : pyval) (kw : option pyval) (st : jail_config) :
  parse_user_input v = VNone ->
  NoDup (map fst (data st)) ->
  exists st',
    set_item A I R Ser "login_flags" v kw st = (Ok tt, st') /\
    getitem R st' "login_flags" = Ok (VObj "JailConfigList" "-f root").
Proof.
  intros Hp Hnd.
  unfold set_item, getitem_depth; cbn -[dset dget ddel parse_user_input].
  rewrite Hp. unfold try_except, data_del, bind, get_state.
  destruct (ddel (data st) "login_flags") as [d'|] eqn:Ed; cbn -[dget].
  - eexists; split; [reflexivity|].
    unfold getitem; cbn -[dget]. simpl data.
    rewrite (ddel_removes _ _ _ Hnd Ed). reflexivity.
  - eexists; split; [reflexivity|].
    unfold getitem; cbn -[dget]. rewrite (ddel_none_absent _ _ Ed). reflexivity.
Qed.

Lemma login_flags_unset_default_witness :
  parse_user_input (VStr "none") = VNone /\
  NoDup (map fst (data Concrete.plain_jail)) /\
  exists st',
    set_item Concrete.addresses Concrete.interfaces Concrete.resolver
      Concrete.resolver_text "login_flags" (VStr "none") None
      Concrete.plain_jail = (Ok tt, st') /\
    getitem Concrete.resolver st' "login_flags"
    = Ok (VObj "JailConfigList" "-f root").
Proof.
  assert (Hnd : NoDup (map fst (data Concrete.plain_jail))).
  { vm_compute. repeat constructor; simpl; intuition discriminate. }
  split; [reflexivity|]. split; [exact Hnd|].
  apply (login_flags_unset_default Concrete.addresses Concrete.interfaces
           Concrete.resolver Concrete.resolver_text (VStr "none") None
           Concrete.plain_jail).
  - reflexivity.
  - exact Hnd.
Defined.

(** A string assigned to [tags] is split at commas into the attribute
    [self.tags], which [self["tags"]] returns; [self.data] is not
    changed. *)
Theorem tags_split_at_commas (A : pyval -> string -> bool -> res pyval)
  (I : pyval -> res pyval) (R : dict -> pyval) (Ser : pyval -> string)
  (v : pyval) (kw : option pyval) (st : jail_config) (s : string) :
  parse_user_input v = VStr s ->
  exists st',
    set_item A I R Ser "tags" v kw st = (Ok tt, st') /\
    getitem R st' "tags" = Ok (VList (PyStr.split_char "," s)) /\
    data st' = data st.
Proof.
  intros Hp.
  unfold set_item, getitem_depth;
    cbn -[dset dget parse_user_input PyStr.split_char].
  rewrite Hp. cbn -[PyStr.split_char].
  eexists; split; [reflexivity|]. split; reflexivity.
Qed.

Lemma tags_split_at_commas_witness :
  parse_user_input (VStr "web,,prod") = VStr "web,,prod" /\
  exists st',
    set_item Concrete.addresses Concrete.interfaces Concrete.resolver
      Concrete.resolver_text "tags" (VStr "web,,prod") None Concrete.plain_jail
    = (Ok tt, st') /\
    getitem Concrete.resolver st' "tags"
    = Ok (VList (PyStr.split_char "," "web,,prod")) /\
    data st' = data Concrete.plain_jail.
Proof.
  split; [reflexivity|].
  apply (tags_split_at_commas Concrete.addresses Concrete.interfaces
           Concrete.resolver Concrete.resolver_text (VStr "web,,prod") None
           Concrete.plain_jail "web,,prod").
  reflexivity.
Defined.

(** [tags] rejects a value parsed to a boolean or [None] (so also the
    words ["yes"], ["off"] or ["none"]) with [InvalidJailConfigValue],
    and changes nothing. *)
Theorem tags_reject_flags (A : pyval -> string -> bool -> res pyval)
  (I : pyval -> res pyval) (R : dict -> pyval) (Ser : pyval -> string)
  (v : pyval) (kw : option pyval) (st : jail_config) :
  (match parse_user_input v with VBool _ | VNone => true | _ => false end)
    = true ->
  set_item A I R Ser "tags" v kw st = (Err InvalidJailConfigValue, st).
Proof.
  intros Hv.
  unfold set_item, getitem_depth;
    cbn -[dset dget parse_user_input PyStr.split_char].
  destruct (parse_user_input v); try discriminate Hv; reflexivity.
Qed.

Lemma tags_reject_flags_witness :
  (match parse_user_input (VStr "yes") with
   | VBool _ | VNone => true | _ => false end) = true /\
  set_item Concrete.addresses Concrete.interfaces Concrete.resolver
    Concrete.resolver_text "tags" (VStr "yes") None Concrete.plain_jail
  = (Err InvalidJailConfigValue, Concrete.plain_jail).
Proof.
  split; [reflexivity|].
  apply (tags_reject_flags Concrete.addresses Concrete.interfaces
           Concrete.resolver Concrete.resolver_text (VStr "yes") None
           Concrete.plain_jail).
  reflexivity.
Defined.

(** [ip4_addr] and [interfaces]: the handler built from the parsed value
    is attached as special property, its string form is mirrored into
    [self.data], and [self[k]] returns the handler. *)
Theorem handler_attached_and_mirrored (A : pyval -> string -> bool -> res pyval)
  (I : pyval -> res pyval) (R : dict -> pyval) (Ser : pyval -> string)
  (k : string) (v : pyval) (kw : option pyval) (st : jail_config) (h : pyval) :
  (k = "ip4_addr" /\ A (parse_user_input v) "ip4_addr" false = Ok h) \/
  (k = "interfaces" /\ I (parse_user_input v) = Ok h) ->
  exists st',
    set_item A I R Ser k v kw st = (Ok tt, st') /\
    getitem R st' k = Ok h /\
    dget (special_properties st') k = Some h /\
    dget (data st') k = Some (VStr (py_str h)).
Proof.
  intros [[-> Hh]|[-> Hh]];
    unfold set_item, getitem_depth; cbn -[dset dget parse_user_input];
    unfold bind, lift; rewrite Hh; cbn -[dset dget];
    rewrite dget_dset_eq; cbn -[dset dget];
    (eexists; split; [reflexivity|]);
    unfold getitem; cbn -[dset dget]; simpl special_properties; simpl data;
    rewrite !dget_dset_eq; auto.
Qed.

Lemma handler_attached_and_mirrored_witness :
  ("ip4_addr" = "ip4_addr" /\
   Concrete.addresses (parse_user_input (VStr "10.0.0.1/24")) "ip4_addr" false
   = Ok (VObj "JailConfigAddresses" "10.0.0.1/24")) /\
  exists st',
    set_item Concrete.addresses Concrete.interfaces Concrete.resolver
      Concrete.resolver_text "ip4_addr" (VStr "10.0.0.1/24") None
      Concrete.plain_jail = (Ok tt, st') /\
    getitem Concrete.resolver st' "ip4_addr"
    = Ok (VObj "JailConfigAddresses" "10.0.0.1/24") /\
    dget (special_properties st') "ip4_addr"
    = Some (VObj "JailConfigAddresses" "10.0.0.1/24") /\
    dget (data st') "ip4_addr"
    = Some (VStr (py_str (VObj "JailConfigAddresses" "10.0.0.1/24"))).
Proof.
  split; [split; reflexivity|].
  apply (handler_attached_and_mirrored Concrete.addresses Concrete.interfaces
           Concrete.resolver Concrete.resolver_text "ip4_addr"
           (VStr "10.0.0.1/24") None Concrete.plain_jail
           (VObj "JailConfigAddresses" "10.0.0.1/24")).
  left; split; reflexivity.
Defined.

(** When the [ip4_addr] or [interfaces] handler constructor raises, the
    assignment raises the same exception and changes nothing. *)
Theorem handler_error_no_change (A : pyval -> string -> bool -> res pyval)
  (I : pyval -> res pyval) (R : dict -> pyval) (Ser : pyval -> string)
  (k : string) (v : pyval) (kw : option pyval) (st : jail_config) (e : exn) :
  (k = "ip4_addr" /\ A (parse_user_input v) "ip4_addr" false = Err e) \/
  (k = "interfaces" /\ I (parse_user_input v) = Err e) ->
  set_item A I R Ser k v kw st = (Err e, st).
Proof.
  intros [[-> Hh]|[-> Hh]];
    unfold set_item, getitem_depth; cbn -[dset dget parse_user_input];
    unfold bind, lift; rewrite Hh; reflexivity.
Qed.

Lemma handler_error_no_change_witness :
  ("ip4_addr" = "ip4_addr" /\
   Samples.reject_addresses (parse_user_input (VStr "10.0.0.300")) "ip4_addr"
     false = Err ValueError) /\
  set_item Samples.reject_addresses Concrete.interfaces Concrete.resolver
    Concrete.resolver_text "ip4_addr" (VStr "10.0.0.300") None
    Concrete.plain_jail = (Err ValueError, Concrete.plain_jail).
Proof.
  split; [split; reflexivity|].
  apply (handler_error_no_change Samples.reject_addresses Concrete.interfaces
           Concrete.resolver Concrete.resolver_text "ip4_addr"
           (VStr "10.0.0.300") None Concrete.plain_jail ValueError).
  left; split; reflexivity.
Defined.

End JailConfigMoreFacts.

(* ------------------------------------------------------------------ *)
(** ** [Resource]: the configuration type *)

Module ResourceFacts.
Import Resource.

Lemma index_err (l : list string) (x : ctype) (e : exn) :
  index l x = Err e -> e = ValueError.
Proof.
  induction l as [|y r IH]; intros H; cbn [index] in H; [congruence|].
  destruct (ctype_eqb (CStr y) x); [discriminate H|].
  destruct (index r x) eqn:E; cbn in H; [discriminate H|].
  injection H as <-. now apply IH.
Qed.

(** No integer is an element of a list of strings. *)
Lemma index_int (l : list string) (n : nat) : index l (CInt n) = Err ValueError.
Proof. induction l as [|y r IH]; simpl; [reflexivity | now rewrite IH]. Qed.

(** [Resource.__init__] always raises a [ValueError], whatever the
    configuration type: it stores [CONFIG_TYPES.index(config_type)], an
    integer, through the [config_type] setter, which looks that integer
    up again in [CONFIG_TYPES], a list of strings. *)
Theorem init_always_raises (c : resource_class) (ds : option zfs_dataset)
  (config_type : string) (config_file : option string) :
  init c ds config_type config_file = Err ValueError.
Proof.
  unfold init. destruct (index CONFIG_TYPES (CStr config_type)) as [n|e] eqn:E;
    simpl.
  - unfold set_config_type. now rewrite index_int.
  - now rewrite (index_err _ _ _ E).
Qed.

(** Reading the [config_type] property always raises a [ValueError]
    ([CONFIG_TYPES.index("auto")] fails) and leaves the object unchanged;
    so does [config_handler], on which [read_config] and [write_config]
    rely, and [config_file] works only when a file name was given
    explicitly. [_find_config_type] is never reached. *)
Theorem config_type_always_raises (isfile : string -> bool) (r : resource) :
  get_config_type isfile r = (Err ValueError, r) /\
  config_handler isfile r = (Err ValueError, r) /\
  config_file isfile r = match _config_file r with
                         | Some f => (Ok (Some f), r)
                         | None => (Err ValueError, r)
                         end.
Proof.
  split; [reflexivity|]. split; [reflexivity|].
  unfold config_file. destruct (_config_file r); reflexivity.
Qed.

End ResourceFacts.

(* ------------------------------------------------------------------ *)
(** ** [iocage get] *)

Module CliGetFacts.
Import CliGet.

(** The error "Missing arguments property and jail" is never printed:
    an empty jail identifier resets the property to [""], which is not
    [None] unless [--all] is given, and then the branch is skipped. *)
Theorem missing_both_unreachable (jail_exists : string -> bool)
  (prop jail : string) (all pool : bool) :
  cli jail_exists prop jail all pool <> MissingBoth.
Proof.
  unfold cli. destruct pool; [discriminate|].
  destruct (String.eqb jail "") eqn:Ej; destruct (jail_exists jail);
    simpl; try discriminate;
    destruct all; simpl; try discriminate;
    destruct (String.eqb prop "all"); simpl; try discriminate;
    rewrite ?Ej; simpl; try discriminate;
    destruct (String.eqb prop ""); discriminate.
Qed.



(** For an existing, named jail, [--all] and the property name ["all"]
    both list all properties, an empty property name lists none (no key
    equals [""]), and any other name is looked up. *)
Theorem named_jail_dispatch (jail_exists : string -> bool)
  (prop jail : string) (all : bool) :
  jail <> "" -> jail_exists jail = true ->
  cli jail_exists prop jail all false
  = if all || String.eqb prop "all" then ListProps None
    else if String.eqb prop "" then ListProps (Some "")
    else Lookup prop.
Proof.
  intros Hj He. unfold cli. simpl.
  apply String.eqb_neq in Hj. rewrite Hj, He. simpl.
  destruct all; simpl; [reflexivity|].
  destruct (String.eqb prop "all") eqn:Ea; simpl; [reflexivity|].
  rewrite ?Hj. simpl.
  destruct (String.eqb prop "") eqn:Ee; simpl; [|reflexivity].
  apply String.eqb_eq in Ee. now subst.
Qed.

Lemma named_jail_dispatch_witness :
  "web01" <> "" /\ (fun j => String.eqb j "web01") "web01" = true /\
  cli (fun j => String.eqb j "web01") "all" "web01" false false
  = if false || String.eqb "all" "all" then ListProps None
    else if String.eqb "all" "" then ListProps (Some "")
    else Lookup "all".
Proof.
  split; [discriminate|]. split; [reflexivity|].
  apply (named_jail_dispatch (fun j => String.eqb j "web01") "all" "web01" false).
  - discriminate.
  - reflexivity.
Defined.

End CliGetFacts.

(* ------------------------------------------------------------------ *)
(** ** More of [JailConfigFstab]: its text form and [parse_lines] *)

Module FstabMoreFacts.
Import Fstab PyStrFacts TextForms.

(** *** Strings *)











End FstabMoreFacts.

(* ------------------------------------------------------------------ *)
(** ** Reading back the text of an fstab *)

Module FstabRoundTrip.
Import Fstab PyStrFacts FstabMoreFacts TextForms.








Lemma tab_space : PyStr.is_space tab = true.
Proof. reflexivity. Qed.


Lemma contains_ok (R : dict -> pyval) (fs : fstab) (l : line) (bl : list line) :
  basejail_lines R fs = Ok bl -> exists b, fstab_contains R fs l = Ok b.
Proof.
  intros H. unfold fstab_contains, iter. rewrite H. simpl.
  destruct (entries fs ++ bl)%list; eauto.
Qed.



Lemma basejail_lines_view (R : dict -> pyval) (fs1 fs2 : fstab) :
  view fs1 = view fs2 -> basejail_lines R fs1 = basejail_lines R fs2.
Proof.
  intros Hv.
  assert (Hl : forall dirs, basejail_loop R fs1 dirs = basejail_loop R fs2 dirs).
  { induction dirs as [|d r IH]; [reflexivity|].
    cbn [basejail_loop]. unfold cfg_get. rewrite Hv, IH. reflexivity. }
  unfold basejail_lines, cfg_get. rewrite Hv, Hl. reflexivity.
Qed.










Lemma parse_line_ok (R : dict -> pyval) (b : bool) (fs : fstab) (raw : string)
  (bl : list line) :
  basejail_lines R fs = Ok bl ->
  exists fs', parse_line R b fs raw = Ok fs' /\ view fs' = view fs.
Proof.
  intros Hbl.
  assert (Hc : forall l, exists d, fstab_contains R fs l = Ok d)
    by (intros l; exact (contains_ok R fs l bl Hbl)).
  unfold parse_line.
  destruct (PyStr.split_once "#" raw) as [[l c]|]; cbv beta iota zeta;
    [destruct (b && _); cbv beta iota zeta; [eauto|] | ];
    (destruct (String.eqb _ ""); [eauto|];
     destruct (PyStr.split_ws _) as [|? [|? [|? [|? [|? [|? [|? ?]]]]]]];
     try (eexists; split; reflexivity);
     match goal with |- context [fstab_contains R fs ?x] =>
       destruct (Hc x) as [d ->] end; cbn [rbind];
     eexists; split; [reflexivity | destruct d; reflexivity]).
Qed.

(** [parse_lines] raises nothing when the basejail lines of the fstab can be
    computed: it returns the fstab it has filled, which reads the same jail. *)
Theorem parse_lines_never_raises (R : dict -> pyval) (fs : fstab)
  (input : string) (b : bool) (bl : list line) :
  basejail_lines R fs = Ok bl ->
  exists fs', parse_lines R fs input b = (Ok fs', fs') /\ view fs' = view fs.
Proof.
  intros Hbl. unfold parse_lines.
  assert (H : forall lines fs0, view fs0 = view fs ->
            exists fs', parse_loop R b fs0 lines = (Ok fs', fs') /\ view fs' = view fs).
  { induction lines as [|raw r IH]; intros fs0 Hv.
    - exists fs0. auto.
    - assert (Hb0 : basejail_lines R fs0 = Ok bl)
        by (rewrite (basejail_lines_view R fs0 fs Hv); exact Hbl).
      destruct (parse_line_ok R b fs0 raw bl Hb0) as [fs1 [E1 V1]].
      cbn [parse_loop]. rewrite E1. apply IH. congruence. }
  apply H. reflexivity.
Qed.

Lemma parse_lines_never_raises_witness :
  exists fs', parse_lines Concrete.resolver Samples.data_fstab
                ("not an fstab line" ++ newline ++ "/a /b nullfs ro 0 0") false
              = (Ok fs', fs') /\ view fs' = view Samples.data_fstab.
Proof.
  apply (parse_lines_never_raises Concrete.resolver Samples.data_fstab _ false
           (match basejail_lines Concrete.resolver Samples.data_fstab with
            | Ok a => a | Err _ => [] end)).
  vm_compute. reflexivity.
Defined.

End FstabRoundTrip.
